(** * Cloudflare DDNS updater: a shallow embedding of [cloudflare_ddns.py]

    The agent is a single linear pass: rate limiter, public IP lookup,
    list call with retries, and one decision per listed record.  The
    clock, the timestamp file, the resolver and the HTTP server are
    inputs (a [world]); what the run does to them is recorded as a
    chronological trace of events next to the way the process ends. *)

From Stdlib Require Import String Ascii List ZArith Bool Arith Lia PrimFloat.
Import ListNotations.
Open Scope string_scope.
Open Scope list_scope.

(** ** Python values reached through [response.json()] *)

Module Py.

(** A parsed JSON document.  An object is the list of its bindings;
    [dict_get] takes the first binding of a key.  A string is the
    sequence of its code points, the model covering code points below
    256. *)
#[warnings="-register-all"]
Inductive json : Type :=
| JNull
| JBool (b : bool)
| JInt (n : Z)
| JFloat (x : float)
| JStr (s : string)
| JArr (xs : list json)
| JObj (kvs : list (string * json)).

Inductive exn : Type :=
  ValueError | TypeError | KeyError | FileNotFoundError | NoResolverConfiguration.

(** The result of an expression that may raise. *)
Inductive fallible (A : Type) : Type :=
| Ok (a : A)
| Err (e : exn).
Arguments Ok {A} a.
Arguments Err {A} e.

(** [bool(v)], as used by [not v]. *)
Definition truthy (v : json) : bool :=
  match v with
  | JNull => false
  | JBool b => b
  | JInt n => negb (n =? 0)%Z
  | JFloat x => negb (PrimFloat.eqb x 0%float)
  | JStr s => negb (s =? "")
  | JArr xs => match xs with [] => false | _ :: _ => true end
  | JObj kvs => match kvs with [] => false | _ :: _ => true end
  end.

(** [v == s] for a [str] s: only an equal string is equal to a string. *)
Definition eq_str (v : json) (s : string) : bool :=
  match v with
  | JStr t => (t =? s)
  | _ => false
  end.

(** [v == x] where x is a [str] or [None], the two values [os.getenv]
    returns. *)
Definition eq_opt_str (v : json) (x : option string) : bool :=
  match x with
  | Some s => eq_str v s
  | None => match v with JNull => true | _ => false end
  end.

Fixpoint assoc (kvs : list (string * json)) (k : string) : option json :=
  match kvs with
  | [] => None
  | (k', v) :: rest => if (k' =? k) then Some v else assoc rest k
  end.

(** [d.get(k)]: [None] (here [JNull]) when the key is missing. *)
Definition dict_get (d : list (string * json)) (k : string) : json :=
  match assoc d k with
  | Some v => v
  | None => JNull
  end.

(** [needle in hay] on two strings. *)
Fixpoint contains (needle hay : string) : bool :=
  match hay with
  | EmptyString => String.prefix needle hay
  | String _ rest => String.prefix needle hay || contains needle rest
  end.

(** [k in v] for a [str] k. *)
Definition has (k : string) (v : json) : fallible bool :=
  match v with
  | JObj kvs => Ok (match assoc kvs k with Some _ => true | None => false end)
  | JArr xs => Ok (existsb (fun x => eq_str x k) xs)
  | JStr s => Ok (contains k s)
  | JNull | JBool _ | JInt _ | JFloat _ => Err TypeError
  end.

(** [v[k]] for a [str] k. *)
Definition getitem (v : json) (k : string) : fallible json :=
  match v with
  | JObj kvs => match assoc kvs k with Some x => Ok x | None => Err KeyError end
  | _ => Err TypeError
  end.

Definition chars (s : string) : list json :=
  map (fun c => JStr (String c EmptyString)) (list_ascii_of_string s).

(** The items [for x in v] visits. *)
Definition iter (v : json) : fallible (list json) :=
  match v with
  | JArr xs => Ok xs
  | JObj kvs => Ok (map (fun kv => JStr (fst kv)) kvs)
  | JStr s => Ok (chars s)
  | JNull | JBool _ | JInt _ | JFloat _ => Err TypeError
  end.

(** One element of the sequence given to [dict(...)]: it must be
    iterable, of length two, and its first item hashable. *)
Definition key_value (e : json) : fallible (json * json) :=
  match iter e with
  | Err x => Err x
  | Ok [k; v] =>
      match k with
      | JArr _ | JObj _ => Err TypeError
      | _ => Ok (k, v)
      end
  | Ok _ => Err ValueError
  end.

(** [dict(xs)] for a sequence of pairs, read left to right: a later
    pair replaces an earlier one with the same key.  A binding under a
    key that is not a string is never found by the string lookups
    below and is left out. *)
Fixpoint dict_of_pairs (acc : list (string * json)) (xs : list json)
  : fallible (list (string * json)) :=
  match xs with
  | [] => Ok acc
  | e :: rest =>
      match key_value e with
      | Err x => Err x
      | Ok (JStr k, v) => dict_of_pairs ((k, v) :: acc) rest
      | Ok _ => dict_of_pairs acc rest
      end
  end.

(** [dict(v)]. *)
Definition dict (v : json) : fallible (list (string * json)) :=
  match v with
  | JObj kvs => Ok kvs
  | JNull | JBool _ | JInt _ | JFloat _ => Err TypeError
  | _ => match iter v with
         | Ok xs => dict_of_pairs [] xs
         | Err x => Err x
         end
  end.

(** [str.isspace] on a code point below 256. *)
Definition is_space (c : ascii) : bool :=
  let n := nat_of_ascii c in
  (((9 <=? n) && (n <=? 13)) || ((28 <=? n) && (n <=? 32))
   || (n =? 133) || (n =? 160))%nat.

Fixpoint lstrip (s : string) : string :=
  match s with
  | EmptyString => EmptyString
  | String c rest => if is_space c then lstrip rest else s
  end.

Fixpoint rstrip (s : string) : string :=
  match s with
  | EmptyString => EmptyString
  | String c rest =>
      match rstrip rest with
      | EmptyString => if is_space c then EmptyString else String c EmptyString
      | r => String c r
      end
  end.

(** [s.strip()]. *)
Definition strip (s : string) : string := rstrip (lstrip s).

End Py.
Import Py.

(** ** The world a run sees and the events it leaves *)

Inductive level : Type := INFO | ERROR.

(** One constructor per log call of the source, carrying the values
    its message is formatted from. *)
Inductive message : Type :=
| MsgExecuting
| MsgRateLimitHit
| MsgResolveError (e : string)
| MsgGettingRecords
| MsgApiError (text : string)
| MsgAttemptFailed (attempt : nat) (e : string)
| MsgUpdating (record_id : json) (ip_address : string)
| MsgUpdated (record_id : json) (ip_address : string)
| MsgUpdateError (e : string)
| MsgNoPublicIp
| MsgNoRecords
| MsgChecking (name : json)
| MsgUpdatingFromTo (name content : json) (public_ip_address : string)
| MsgUpToDate (name : json)
| MsgNotWanted (name : json).

(** The JSON document sent by the update call. *)
Record put_body : Type := {
  body_type : string;
  body_name : json;
  body_content : string;
  body_ttl : Z;
  body_proxied : bool
}.

Inductive event : Type :=
| Log (lvl : level) (msg : message)
| FileRead
| FileWrite (content : string)
| DnsQuery (nameserver qname rdtype : string)
| HttpGet (zone_id token : option string) (type : string) (name : option string)
| Sleep (seconds : nat)
| HttpPut (zone_id token : option string) (record_id : json) (body : put_body).

Definition is_network (e : event) : bool :=
  match e with
  | DnsQuery _ _ _ | HttpGet _ _ _ _ | HttpPut _ _ _ _ => true
  | _ => false
  end.

(** What [response.json()] gives or raises. *)
Inductive parsed : Type :=
| Parsed (j : json)
| Unparsable (e : string).

(** What [requests.get] / [requests.put] gives or raises. *)
Inductive http_reply : Type :=
| Response (status_code : Z) (text : string) (body : parsed)
| Transport (e : string).

(** What [resolver.resolve] gives or raises: the answer's addresses
    as [to_text] prints them. *)
Inductive dns_reply : Type :=
| DnsAnswer (rdatas : list string)
| DnsError (e : string).

Record world : Type := {
  now : float;                        (* time.time() *)
  last_run_file : option string;      (* .last_run, None when absent *)
  CLOUDFLARE_ZONE_ID : option string;
  CLOUDFLARE_API_TOKEN : option string;
  CLOUDFLARE_RECORD_NAME : option string;
  resolver_error : option exn;        (* what Resolver() raises, None when it builds *)
  dns : dns_reply;
  get_reply : nat -> http_reply;      (* by attempt number *)
  put_reply : nat -> http_reply       (* by update call, from 0 *)
}.

(** What a run can change besides the log: the timestamp file and the
    number of update calls made so far.  The file can always be read
    and written: errors of the file system are not part of the model. *)
Record state : Type := {
  file : option string;
  puts : nat
}.

Definition initial (w : world) : state :=
  {| file := last_run_file w; puts := 0 |}.

(** How a computation ends: with a value, by [sys.exit], or by an
    exception nobody caught. *)
Inductive res (A : Type) : Type :=
| Val (a : A)
| Exit (code : Z)
| Raise (e : exn).
Arguments Val {A} a.
Arguments Exit {A} code.
Arguments Raise {A} e.

(** A computation from a state: how it ends, the state it leaves and
    the events it emitted, oldest first. *)
Record outcome (A : Type) : Type := {
  result : res A;
  final : state;
  trace : list event
}.
Arguments result {A} o.
Arguments final {A} o.
Arguments trace {A} o.

Definition M (A : Type) : Type := state -> outcome A.

Definition ret {A} (a : A) : M A :=
  fun st => {| result := Val a; final := st; trace := [] |}.

Definition bind {A B} (m : M A) (k : A -> M B) : M B :=
  fun st =>
    let o := m st in
    match result o with
    | Val a =>
        let o' := k a (final o) in
        {| result := result o'; final := final o'; trace := trace o ++ trace o' |}
    | Exit c => {| result := Exit c; final := final o; trace := trace o |}
    | Raise e => {| result := Raise e; final := final o; trace := trace o |}
    end.

Declare Scope agent_scope.
Delimit Scope agent_scope with agent.
Notation "x <- m ;; k" := (bind m (fun x => k))
  (at level 61, m at next level, right associativity) : agent_scope.
Notation "m ;; k" := (bind m (fun _ => k))
  (at level 61, right associativity) : agent_scope.
Open Scope agent_scope.

Definition emit (e : event) : M unit :=
  fun st => {| result := Val tt; final := st; trace := [e] |}.

Definition logging (lvl : level) (msg : message) : M unit := emit (Log lvl msg).

Definition sys_exit {A} (code : Z) : M A :=
  fun st => {| result := Exit code; final := st; trace := [] |}.

Definition raise {A} (e : exn) : M A :=
  fun st => {| result := Raise e; final := st; trace := [] |}.

Definition lift {A} (t : fallible A) : M A :=
  match t with
  | Ok a => ret a
  | Err e => raise e
  end.

(** [os.path.exists(RATE_LIMIT_FILE)]. *)
Definition path_exists : M bool :=
  fun st =>
    {| result := Val (match file st with Some _ => true | None => false end);
       final := st; trace := [] |}.

(** [open(RATE_LIMIT_FILE, "r")] and [f.read()]. *)
Definition read_file : M string :=
  fun st =>
    match file st with
    | Some s => {| result := Val s; final := st; trace := [FileRead] |}
    | None => {| result := Raise FileNotFoundError; final := st; trace := [] |}
    end.

(** [open(RATE_LIMIT_FILE, "w")] and [f.write(s)]. *)
Definition write_file (s : string) : M unit :=
  fun st =>
    {| result := Val tt; final := {| file := Some s; puts := puts st |};
       trace := [FileWrite s] |}.

(** The index of the update call about to be made. *)
Definition next_put : M nat :=
  fun st =>
    {| result := Val (puts st); final := {| file := file st; puts := S (puts st) |};
       trace := [] |}.

(** [for x in xs: body(x)]. *)
Fixpoint for_each {A} (xs : list A) (body : A -> M unit) : M unit :=
  match xs with
  | [] => ret tt
  | x :: rest => body x ;; for_each rest body
  end.

(** ** Constants of the source *)

Definition MIN_SECONDS_BETWEEN_RUNS : float := 55%float.
Definition MAX_RETRIES : nat := 3.
Definition RETRY_BACKOFF_SECONDS : nat := 5.

(** A decimal reader and printer for the timestamps the examples use;
    they agree with [float] and [str] on those strings and values. *)
Definition sample_float (s : string) : option float :=
  if s =? "1700000000.0" then Some 1700000000%float
  else if s =? "1700000030.5" then Some 1700000030.5%float
  else if s =? "1700000100.0" then Some 1700000100%float
  else None.

Definition sample_str (x : float) : string :=
  if PrimFloat.eqb x 1700000030.5%float then "1700000030.5"
  else if PrimFloat.eqb x 1700000100%float then "1700000100.0"
  else "1700000000.0".

(** ** The agent *)

Section Agent.

(** Python's [float] on a non-empty string ([None]: it raises
    [ValueError]) and [str] on a float. *)
Variable py_float : string -> option float.
Variable py_str : float -> string.

(** [float(s or 0)]. *)
Definition float_or_zero (s : string) : fallible float :=
  if s =? "" then Ok 0%float
  else match py_float s with
       | Some x => Ok x
       | None => Err ValueError
       end.

Definition __rate_limit (w : world) : M unit :=
  (exists_ <- path_exists ;;
   if (exists_ : bool) then
     text <- read_file ;;
     last_run <- lift (float_or_zero (strip text)) ;;
     if PrimFloat.ltb (PrimFloat.sub (now w) last_run) MIN_SECONDS_BETWEEN_RUNS then
       logging INFO MsgRateLimitHit ;;
       sys_exit 0
     else ret tt
   else ret tt) ;;
  write_file (py_str (now w)).

(** [dns.resolver.Resolver()], which reads the host's resolver
    configuration and raises when there is none (line 77, before the
    [try]). *)
Definition new_resolver (w : world) : M unit :=
  match resolver_error w with
  | Some e => raise e
  | None => ret tt
  end.

Definition __get_public_ip (w : world) : M (option string) :=
  new_resolver w ;;
  emit (DnsQuery "208.67.222.222" "myip.opendns.com" "A") ;;
  match dns w with
  | DnsAnswer (rdata :: _) => ret (Some rdata)
  | DnsAnswer [] => ret None
  | DnsError e => logging ERROR (MsgResolveError e) ;; ret None
  end.

(** The body of the retry loop, for the attempts still to make. *)
Fixpoint get_attempts (w : world) (attempts : list nat) : M json :=
  match attempts with
  | [] => sys_exit 1
  | attempt :: rest =>
      emit (HttpGet (CLOUDFLARE_ZONE_ID w) (CLOUDFLARE_API_TOKEN w) "A"
                    (CLOUDFLARE_RECORD_NAME w)) ;;
      match get_reply w attempt with
      | Response status_code text body =>
          if (status_code =? 200)%Z then
            match body with
            | Parsed j => ret j
            | Unparsable e =>
                logging ERROR (MsgAttemptFailed attempt e) ;;
                emit (Sleep (RETRY_BACKOFF_SECONDS * attempt)) ;;
                get_attempts w rest
            end
          else
            logging ERROR (MsgApiError text) ;;
            emit (Sleep (RETRY_BACKOFF_SECONDS * attempt)) ;;
            get_attempts w rest
      | Transport e =>
          logging ERROR (MsgAttemptFailed attempt e) ;;
          emit (Sleep (RETRY_BACKOFF_SECONDS * attempt)) ;;
          get_attempts w rest
      end
  end.

Definition __get_cloudflare_dns_records (w : world) : M json :=
  logging INFO MsgGettingRecords ;;
  get_attempts w (seq 1 MAX_RETRIES).

Definition __update_cloudflare_dns_record (w : world)
  (record_id : json) (ip_address : string) (name : json) : M (option json) :=
  logging INFO (MsgUpdating record_id ip_address) ;;
  k <- next_put ;;
  emit (HttpPut (CLOUDFLARE_ZONE_ID w) (CLOUDFLARE_API_TOKEN w) record_id
          {| body_type := "A"; body_name := name; body_content := ip_address;
             body_ttl := 1; body_proxied := false |}) ;;
  match put_reply w k with
  | Response status_code text body =>
      if (status_code =? 200)%Z then
        logging INFO (MsgUpdated record_id ip_address) ;;
        match body with
        | Parsed j => ret (Some j)
        | Unparsable e => logging ERROR (MsgUpdateError e) ;; ret None
        end
      else
        logging ERROR (MsgUpdateError text) ;; ret None
  | Transport e => logging ERROR (MsgUpdateError e) ;; ret None
  end.

(** The body of the loop over [records["result"]]. *)
Definition check_record (w : world) (public_ip_address : string) (record : json)
  : M unit :=
  record_dict <- lift (dict record) ;;
  if eq_str (dict_get record_dict "type") "A" then
    logging INFO (MsgChecking (dict_get record_dict "name")) ;;
    if eq_opt_str (dict_get record_dict "name") (CLOUDFLARE_RECORD_NAME w)
       && negb (eq_str (dict_get record_dict "content") public_ip_address)
    then
      logging INFO (MsgUpdatingFromTo (dict_get record_dict "name")
                      (dict_get record_dict "content") public_ip_address) ;;
      __update_cloudflare_dns_record w (dict_get record_dict "id")
        public_ip_address (dict_get record_dict "name") ;;
      ret tt
    else if eq_opt_str (dict_get record_dict "name") (CLOUDFLARE_RECORD_NAME w) then
      logging INFO (MsgUpToDate (dict_get record_dict "name"))
    else
      logging INFO (MsgNotWanted (dict_get record_dict "name"))
  else ret tt.

Definition main (w : world) : M unit :=
  logging INFO MsgExecuting ;;
  __rate_limit w ;;
  public_ip_address <- __get_public_ip w ;;
  match public_ip_address with
  | Some ip =>
      if (ip =? "") then logging ERROR MsgNoPublicIp
      else
        records <- __get_cloudflare_dns_records w ;;
        if negb (truthy records) then logging ERROR MsgNoRecords
        else
          found <- lift (has "result" records) ;;
          if negb found then logging ERROR MsgNoRecords
          else
            listed <- lift (getitem records "result") ;;
            items <- lift (iter listed) ;;
            for_each items (check_record w ip)
  | None => logging ERROR MsgNoPublicIp
  end.

(** Two stretches of [main], named for the proofs: what follows the
    list call (lines 165-191) and what follows the address (lines
    164-191).  [main_stretches] below shows [main] is made of them. *)
Definition main_after_list (w : world) (ip : string) (records : json) : M unit :=
  if negb (truthy records) then logging ERROR MsgNoRecords
  else
    found <- lift (has "result" records) ;;
    if negb found then logging ERROR MsgNoRecords
    else
      listed <- lift (getitem records "result") ;;
      items <- lift (iter listed) ;;
      for_each items (check_record w ip).

Definition main_after_ip (w : world) (ip : string) : M unit :=
  records <- __get_cloudflare_dns_records w ;;
  main_after_list w ip records.

(** The whole process: [main()] from the initial state. *)
Definition run (w : world) : outcome unit := main w (initial w).

(** The exit status of the process. *)
Definition exit_code (r : res unit) : Z :=
  match r with
  | Val _ => 0
  | Exit c => c
  | Raise _ => 1
  end.

(** ** Reading a trace *)

(** The update calls of a trace: record id and body sent, in order. *)
Definition update_calls (t : list event) : list (json * put_body) :=
  flat_map (fun e => match e with
                     | HttpPut _ _ record_id body => [(record_id, body)]
                     | _ => []
                     end) t.

(** The seconds slept, in order. *)
Definition sleeps (t : list event) : list nat :=
  flat_map (fun e => match e with Sleep n => [n] | _ => [] end) t.

(** The names logged by "checking record", in order. *)
Definition checked (t : list event) : list json :=
  flat_map (fun e => match e with
                     | Log INFO (MsgChecking name) => [name]
                     | _ => []
                     end) t.

(** ** Conditions on a run, stated with the agent's own functions *)

(** [m] returns [a] from every state. *)
Definition returns {A} (m : M A) (a : A) : Prop :=
  forall st, result (m st) = Val a.

(** The rate limiter lets the run through. *)
Definition proceeds (w : world) : Prop :=
  result (__rate_limit w (initial w)) = Val tt.

(** The run gets as far as the list call, with public address [ip]. *)
Definition resolves (w : world) (ip : string) : Prop :=
  proceeds w /\ returns (__get_public_ip w) (Some ip) /\ ip <> "".

(** The list call gives the run an object whose ["result"] is the
    list [records]. *)
Definition lists (w : world) (ip : string) (records : list json) : Prop :=
  resolves w ip /\
  exists kvs, returns (__get_cloudflare_dns_records w) (JObj kvs)
              /\ assoc kvs "result" = Some (JArr records).

(** A reply after which the retry loop sleeps and tries again. *)
Definition is_failure (r : http_reply) : bool :=
  match r with
  | Response status_code _ (Parsed _) => negb (status_code =? 200)%Z
  | Response _ _ (Unparsable _) => true
  | Transport _ => true
  end.

(** The three tests that lead to the update call (lines 172 and
    175-178), on a record already made a dict. *)
Definition wants_update (w : world) (ip : string) (d : list (string * json)) : bool :=
  eq_str (dict_get d "type") "A"
  && eq_opt_str (dict_get d "name") (CLOUDFLARE_RECORD_NAME w)
  && negb (eq_str (dict_get d "content") ip).

(** The update call made for such a record. *)
Definition call_for (ip : string) (d : list (string * json)) : json * put_body :=
  (dict_get d "id",
   {| body_type := "A"; body_name := dict_get d "name"; body_content := ip;
      body_ttl := 1; body_proxied := false |}).

(** The update calls the loop makes on [items]. *)
Definition calls_on (w : world) (ip : string) (items : list json) : list (json * put_body) :=
  update_calls (trace (for_each items (check_record w ip) {| file := None; puts := 0 |})).

(** The name a record is logged under by "checking record", if it is. *)
Definition checking_line (record : json) : list json :=
  match dict record with
  | Ok d => if eq_str (dict_get d "type") "A" then [dict_get d "name"] else []
  | Err _ => []
  end.

(** [dict(v)] does not raise. *)
Definition converts (v : json) : bool :=
  match dict v with
  | Ok _ => true
  | Err _ => false
  end.

(** A list reply body of the expected shape: an object whose
    ["result"], when present, is a list of records [dict] accepts;
    or an empty body. *)
Definition well_shaped (body : json) : bool :=
  match body with
  | JObj kvs =>
      match assoc kvs "result" with
      | Some (JArr records) => forallb converts records
      | Some _ => false
      | None => true
      end
  | _ => negb (truthy body)
  end.

(** ** Sample worlds *)

Definition home : string := "home.example.com".

Definition a_record (id name content : string) : json :=
  JObj [("id", JStr id); ("type", JStr "A"); ("name", JStr name);
        ("content", JStr content); ("ttl", JInt 1); ("proxied", JBool false)].

Definition listing (records : list json) : json :=
  JObj [("result", JArr records); ("success", JBool true);
        ("errors", JArr []); ("messages", JArr [])].

(** A first run (no timestamp file) that resolves [ip] and is listed
    [records]; every update call is answered 200. *)
Definition sample_world (ip : string) (records : list json) : world :=
  {| now := 1700000100%float;
     last_run_file := None;
     CLOUDFLARE_ZONE_ID := Some "zone";
     CLOUDFLARE_API_TOKEN := Some "token";
     CLOUDFLARE_RECORD_NAME := Some home;
     resolver_error := None;
     dns := DnsAnswer [ip];
     get_reply := fun _ => Response 200 "" (Parsed (listing records));
     put_reply := fun _ => Response 200 "" (Parsed (JObj [("success", JBool true)])) |}.

(** The same world with a timestamp file holding [text] and the clock
    at [t]. *)
Definition with_file (text : string) (t : float) (w : world) : world :=
  {| now := t;
     last_run_file := Some text;
     CLOUDFLARE_ZONE_ID := CLOUDFLARE_ZONE_ID w;
     CLOUDFLARE_API_TOKEN := CLOUDFLARE_API_TOKEN w;
     CLOUDFLARE_RECORD_NAME := CLOUDFLARE_RECORD_NAME w;
     resolver_error := resolver_error w;
     dns := dns w;
     get_reply := get_reply w;
     put_reply := put_reply w |}.

(** A record of another type under the configured name. *)
Definition cname_record : json :=
  JObj [("id", JStr "r9"); ("type", JStr "CNAME"); ("name", JStr home);
        ("content", JStr "target.example.net")].

(** A run whose timestamp file holds text that is not a number. *)
Definition garbled_world : world :=
  with_file "abc" 1700000100%float (sample_world "5.6.7.8" []).

(** A run listed two "A" records under the configured name, neither
    holding the resolved address. *)
Definition two_targets_world : world :=
  sample_world "5.6.7.8" [a_record "r1" home "1.2.3.4"; a_record "r2" home "9.9.9.9"].

(** A run listed a single record, of type "CNAME". *)
Definition cname_world : world := sample_world "5.6.7.8" [cname_record].

(** The same world with the list call answered by [reply]. *)
Definition with_get_reply (reply : nat -> http_reply) (w : world) : world :=
  {| now := now w;
     last_run_file := last_run_file w;
     CLOUDFLARE_ZONE_ID := CLOUDFLARE_ZONE_ID w;
     CLOUDFLARE_API_TOKEN := CLOUDFLARE_API_TOKEN w;
     CLOUDFLARE_RECORD_NAME := CLOUDFLARE_RECORD_NAME w;
     resolver_error := resolver_error w;
     dns := dns w;
     get_reply := reply;
     put_reply := put_reply w |}.

(** ** Kinds of events *)

Definition is_log (e : event) : bool :=
  match e with Log _ _ => true | _ => false end.

Definition is_dns (e : event) : bool :=
  match e with DnsQuery _ _ _ => true | _ => false end.

Definition is_get (e : event) : bool :=
  match e with HttpGet _ _ _ _ => true | _ => false end.

Definition is_put (e : event) : bool :=
  match e with HttpPut _ _ _ _ => true | _ => false end.

Definition is_sleep (e : event) : bool :=
  match e with Sleep _ => true | _ => false end.

Definition is_write (e : event) : bool :=
  match e with FileWrite _ => true | _ => false end.

Definition is_file (e : event) : bool :=
  match e with FileRead | FileWrite _ => true | _ => false end.

(** What the list call may emit, and what the loop over the listed
    records may emit. *)
Definition of_list_call (e : event) : bool := is_log e || is_get e || is_sleep e.
Definition of_loop (e : event) : bool := is_log e || is_put e.

(** The list request of a run. *)
Definition list_request (w : world) : event :=
  HttpGet (CLOUDFLARE_ZONE_ID w) (CLOUDFLARE_API_TOKEN w) "A" (CLOUDFLARE_RECORD_NAME w).

(** The update calls a well-formed listing asks for: one per record
    that passes the three tests, in list order. *)
Definition due_calls (w : world) (ip : string) (records : list json)
  : list (json * put_body) :=
  flat_map (fun r => match dict r with
                     | Ok d => if wants_update w ip d then [call_for ip d] else []
                     | Err _ => []
                     end) records.

(** A record [dict] accepts and that carries a string under "name". *)
Definition is_named (r : json) : bool :=
  match dict r with
  | Ok d => match dict_get d "name" with JStr _ => true | _ => false end
  | Err _ => false
  end.

(** The same world with the update calls answered by [reply]. *)
Definition with_put_reply (reply : nat -> http_reply) (w : world) : world :=
  {| now := now w;
     last_run_file := last_run_file w;
     CLOUDFLARE_ZONE_ID := CLOUDFLARE_ZONE_ID w;
     CLOUDFLARE_API_TOKEN := CLOUDFLARE_API_TOKEN w;
     CLOUDFLARE_RECORD_NAME := CLOUDFLARE_RECORD_NAME w;
     resolver_error := resolver_error w;
     dns := dns w;
     get_reply := get_reply w;
     put_reply := reply |}.

(** The same world with the resolver answering [reply]. *)
Definition with_dns (reply : dns_reply) (w : world) : world :=
  {| now := now w;
     last_run_file := last_run_file w;
     CLOUDFLARE_ZONE_ID := CLOUDFLARE_ZONE_ID w;
     CLOUDFLARE_API_TOKEN := CLOUDFLARE_API_TOKEN w;
     CLOUDFLARE_RECORD_NAME := CLOUDFLARE_RECORD_NAME w;
     resolver_error := resolver_error w;
     dns := reply;
     get_reply := get_reply w;
     put_reply := put_reply w |}.

(** A run, 100 s after the last one, whose one update call is
    answered 500. *)
Definition failed_update_world : world :=
  with_put_reply (fun _ => Response 500 "error" (Unparsable "no JSON"))
    (with_file "1700000000.0" 1700000100%float
       (sample_world "5.6.7.8" [a_record "r1" home "1.2.3.4"])).

(** A run listed the number 7 and then a stale record. *)
Definition bad_item_first_world : world :=
  sample_world "5.6.7.8" [JInt 7; a_record "r1" home "1.2.3.4"].

(** A run whose list call is answered 200 with the body [5]. *)
Definition scalar_body_world : world :=
  with_get_reply (fun _ => Response 200 "5" (Parsed (JInt 5)))
    (sample_world "5.6.7.8" []).

(** The same world on a host where [Resolver()] raises [e]. *)
Definition with_resolver_error (e : exn) (w : world) : world :=
  {| now := now w;
     last_run_file := last_run_file w;
     CLOUDFLARE_ZONE_ID := CLOUDFLARE_ZONE_ID w;
     CLOUDFLARE_API_TOKEN := CLOUDFLARE_API_TOKEN w;
     CLOUDFLARE_RECORD_NAME := CLOUDFLARE_RECORD_NAME w;
     resolver_error := Some e;
     dns := dns w;
     get_reply := get_reply w;
     put_reply := put_reply w |}.

(** The same world with the record name not set in the environment. *)
Definition without_record_name (w : world) : world :=
  {| now := now w;
     last_run_file := last_run_file w;
     CLOUDFLARE_ZONE_ID := CLOUDFLARE_ZONE_ID w;
     CLOUDFLARE_API_TOKEN := CLOUDFLARE_API_TOKEN w;
     CLOUDFLARE_RECORD_NAME := None;
     resolver_error := resolver_error w;
     dns := dns w;
     get_reply := get_reply w;
     put_reply := put_reply w |}.

(** Two outcomes that end the same way, made the same update calls
    and left the same timestamp file. *)
Definition agree {A} (o o' : outcome A) : Prop :=
  result o = result o'
  /\ update_calls (trace o) = update_calls (trace o')
  /\ file (final o) = file (final o').

(** ** Sequencing *)

#[local] Arguments float_or_zero : simpl never.
#[local] Arguments strip : simpl never.

Lemma bind_val {A B} (m : M A) (k : A -> M B) (st : state) (a : A) :
  result (m st) = Val a ->
  bind m k st =
    {| result := result (k a (final (m st)));
       final := final (k a (final (m st)));
       trace := trace (m st) ++ trace (k a (final (m st))) |}.
Proof. unfold bind. intros ->. reflexivity. Qed.

Lemma bind_exit {A B} (m : M A) (k : A -> M B) (st : state) (c : Z) :
  result (m st) = Exit c ->
  bind m k st = {| result := Exit c; final := final (m st); trace := trace (m st) |}.
Proof. unfold bind. intros ->. reflexivity. Qed.

Lemma bind_raise {A B} (m : M A) (k : A -> M B) (st : state) (e : exn) :
  result (m st) = Raise e ->
  bind m k st = {| result := Raise e; final := final (m st); trace := trace (m st) |}.
Proof. unfold bind. intros ->. reflexivity. Qed.

Lemma update_calls_app (s t : list event) :
  update_calls (s ++ t) = update_calls s ++ update_calls t.
Proof. apply flat_map_app. Qed.

Lemma sleeps_app (s t : list event) : sleeps (s ++ t) = sleeps s ++ sleeps t.
Proof. apply flat_map_app. Qed.

Lemma checked_app (s t : list event) : checked (s ++ t) = checked s ++ checked t.
Proof. apply flat_map_app. Qed.

(** ** The rate limiter, case by case *)

Lemma rate_limit_absent (w : world) (st : state) :
  file st = None ->
  __rate_limit w st =
    {| result := Val tt;
       final := {| file := Some (py_str (now w)); puts := puts st |};
       trace := [FileWrite (py_str (now w))] |}.
Proof.
  intros H. destruct st as [f p]; simpl in H; subst f. reflexivity.
Qed.

Lemma rate_limit_unreadable (w : world) (st : state) (text : string) (e : exn) :
  file st = Some text ->
  float_or_zero (strip text) = Err e ->
  __rate_limit w st = {| result := Raise e; final := st; trace := [FileRead] |}.
Proof.
  intros H E. destruct st as [f p]; simpl in H; subst f.
  unfold __rate_limit, bind, path_exists, read_file. simpl.
  rewrite E. reflexivity.
Qed.

Lemma rate_limit_blocked (w : world) (st : state) (text : string) (t0 : float) :
  file st = Some text ->
  float_or_zero (strip text) = Ok t0 ->
  PrimFloat.ltb (PrimFloat.sub (now w) t0) MIN_SECONDS_BETWEEN_RUNS = true ->
  __rate_limit w st =
    {| result := Exit 0; final := st;
       trace := [FileRead; Log INFO MsgRateLimitHit] |}.
Proof.
  intros H E L. destruct st as [f p]; simpl in H; subst f.
  unfold __rate_limit, bind, path_exists, read_file. simpl.
  rewrite E. simpl. rewrite L. reflexivity.
Qed.

Lemma rate_limit_allowed (w : world) (st : state) (text : string) (t0 : float) :
  file st = Some text ->
  float_or_zero (strip text) = Ok t0 ->
  PrimFloat.ltb (PrimFloat.sub (now w) t0) MIN_SECONDS_BETWEEN_RUNS = false ->
  __rate_limit w st =
    {| result := Val tt;
       final := {| file := Some (py_str (now w)); puts := puts st |};
       trace := [FileRead; FileWrite (py_str (now w))] |}.
Proof.
  intros H E L. destruct st as [f p]; simpl in H; subst f.
  unfold __rate_limit, bind, path_exists, read_file. simpl.
  rewrite E. simpl. rewrite L. reflexivity.
Qed.

(** When the limiter returns, it has written the clock's reading, and
    all it did before was, at most, read the file. *)
Lemma rate_limit_returns (w : world) (st : state) :
  result (__rate_limit w st) = Val tt ->
  final (__rate_limit w st) = {| file := Some (py_str (now w)); puts := puts st |}
  /\ (trace (__rate_limit w st) = [FileWrite (py_str (now w))]
      \/ trace (__rate_limit w st) = [FileRead; FileWrite (py_str (now w))]).
Proof.
  destruct (file st) as [text|] eqn:F.
  - destruct (float_or_zero (strip text)) as [t0|e] eqn:E.
    + destruct (PrimFloat.ltb (PrimFloat.sub (now w) t0) MIN_SECONDS_BETWEEN_RUNS) eqn:L.
      * rewrite (rate_limit_blocked w st text t0 F E L). discriminate.
      * rewrite (rate_limit_allowed w st text t0 F E L). simpl. auto.
    + rewrite (rate_limit_unreadable w st text e F E). discriminate.
  - rewrite (rate_limit_absent w st F). simpl. auto.
Qed.

Lemma rate_limit_calls (w : world) (st : state) :
  update_calls (trace (__rate_limit w st)) = []
  /\ sleeps (trace (__rate_limit w st)) = []
  /\ checked (trace (__rate_limit w st)) = [].
Proof.
  destruct st as [f p]. unfold __rate_limit, bind, path_exists, read_file. simpl.
  destruct f as [text|]; simpl; [|auto].
  destruct (float_or_zero (strip text)) as [t0|e]; simpl; [|auto].
  destruct (PrimFloat.ltb _ _); simpl; auto.
Qed.

(** ** The resolver *)

(** On a host where [Resolver()] raises, nothing else happens. *)
Lemma public_ip_unbuilt (w : world) (st : state) (e : exn) :
  resolver_error w = Some e ->
  __get_public_ip w st = {| result := Raise e; final := st; trace := [] |}.
Proof.
  intros H. unfold __get_public_ip, new_resolver, bind. rewrite H. reflexivity.
Qed.

Lemma returns_built (w : world) (ip : string) :
  returns (__get_public_ip w) (Some ip) -> resolver_error w = None.
Proof.
  intros R. destruct (resolver_error w) as [e|] eqn:E; [|reflexivity].
  specialize (R {| file := None; puts := 0 |}).
  rewrite (public_ip_unbuilt w _ e E) in R. discriminate.
Qed.

Lemma public_ip_outcome (w : world) (st : state) :
  resolver_error w = None ->
  exists (ip : option string) (logs : list event),
    __get_public_ip w st =
      {| result := Val ip; final := st;
         trace := DnsQuery "208.67.222.222" "myip.opendns.com" "A" :: logs |}
    /\ update_calls logs = [] /\ sleeps logs = [] /\ checked logs = []
    /\ (forall a, ip = Some a -> exists rest, dns w = DnsAnswer (a :: rest)).
Proof.
  intros Built. unfold __get_public_ip, new_resolver, bind. rewrite Built. simpl.
  destruct (dns w) as [[|rdata rest]|e]; simpl.
  - exists None, []. repeat split; try reflexivity. discriminate.
  - exists (Some rdata), []. repeat split; try reflexivity.
    intros a [= <-]. now exists rest.
  - exists None, [Log ERROR (MsgResolveError e)]. repeat split; try reflexivity.
    discriminate.
Qed.

(** ** The list call *)

(** One failed attempt followed by the rest of the loop. *)
Ltac retry_step F U C R fails :=
  cbn [result final trace app]; rewrite F;
  let body := fresh "body" in
  let a := fresh "a" in
  let t := fresh "t" in
  let Rv := fresh "Rv" in
  let Ia := fresh "Ia" in
  let Ga := fresh "Ga" in
  let Re := fresh "Re" in
  let Fa := fresh "Fa" in
  let Sl := fresh "Sl" in
  destruct R as [(body & a & t & Rv & Ia & Ga)|(Re & Fa & Sl)];
  [ rewrite Rv; cbn [result final trace app];
    repeat split; try exact U; try exact C; try reflexivity;
    left; exists body, a, t; repeat split; auto; now right
  | rewrite Re; cbn [result final trace app];
    repeat split; try exact U; try exact C; try reflexivity;
    right; repeat split; auto;
    [ intros a [<-|Ia]; [fails | now apply Fa]
    | cbn [sleeps flat_map app map]; f_equal; exact Sl ] ].

Lemma get_attempts_outcome (w : world) (attempts : list nat) (st : state) :
  final (get_attempts w attempts st) = st
  /\ update_calls (trace (get_attempts w attempts st)) = []
  /\ checked (trace (get_attempts w attempts st)) = []
  /\ ((exists body attempt text,
         result (get_attempts w attempts st) = Val body
         /\ In attempt attempts
         /\ get_reply w attempt = Response 200 text (Parsed body))
      \/ (result (get_attempts w attempts st) = Exit 1
          /\ (forall attempt, In attempt attempts ->
                is_failure (get_reply w attempt) = true)
          /\ sleeps (trace (get_attempts w attempts st))
             = map (fun attempt => RETRY_BACKOFF_SECONDS * attempt) attempts)).
Proof.
  revert st. induction attempts as [|attempt rest IH]; intros st.
  - simpl. repeat split; try reflexivity. right. repeat split; try reflexivity.
    intros ? [].
  - destruct (IH st) as (F & U & C & R).
    cbn [get_attempts]. unfold bind, logging, emit. cbn [result final trace].
    destruct (get_reply w attempt) as [status_code text [j|e]|e] eqn:G;
      [destruct (status_code =? 200)%Z eqn:S| |].
    + apply Z.eqb_eq in S. subst status_code.
      cbn. repeat split; try reflexivity. left. exists j, attempt, text.
      repeat split; auto.
    + retry_step F U C R ltac:(rewrite G; simpl; now rewrite S).
    + destruct (status_code =? 200)%Z;
        retry_step F U C R ltac:(now rewrite G).
    + retry_step F U C R ltac:(now rewrite G).
Qed.

Lemma get_records_outcome (w : world) (st : state) :
  final (__get_cloudflare_dns_records w st) = st
  /\ update_calls (trace (__get_cloudflare_dns_records w st)) = []
  /\ checked (trace (__get_cloudflare_dns_records w st)) = []
  /\ ((exists body attempt text,
         result (__get_cloudflare_dns_records w st) = Val body
         /\ 1 <= attempt <= MAX_RETRIES
         /\ get_reply w attempt = Response 200 text (Parsed body))
      \/ (result (__get_cloudflare_dns_records w st) = Exit 1
          /\ (forall attempt, 1 <= attempt <= MAX_RETRIES ->
                is_failure (get_reply w attempt) = true)
          /\ sleeps (trace (__get_cloudflare_dns_records w st)) = [5; 10; 15])).
Proof.
  destruct (get_attempts_outcome w (seq 1 MAX_RETRIES) st) as (F & U & C & R).
  unfold __get_cloudflare_dns_records, bind, logging, emit.
  cbn [result final trace].
  assert (range : forall attempt, In attempt (seq 1 MAX_RETRIES)
                                  <-> 1 <= attempt <= MAX_RETRIES).
  { intros attempt. rewrite in_seq. unfold MAX_RETRIES. lia. }
  destruct R as [(body & a & t & Rv & Ia & Ga)|(Re & Fa & Sl)].
  - rewrite Rv. cbn [result final trace app]. repeat split; auto.
    left. exists body, a, t. repeat split; auto; now apply range.
  - rewrite Re. cbn [result final trace app]. repeat split; auto.
    right. repeat split; auto.
    intros attempt Ha. apply Fa. now apply range.
Qed.

(** ** The update call *)

(** It is made once, is never retried, and whatever the reply it
    returns to its caller. *)
Lemma update_outcome (w : world) (record_id : json) (ip : string) (name : json)
  (st : state) :
  exists (v : option json) (logs : list event),
    __update_cloudflare_dns_record w record_id ip name st =
      {| result := Val v;
         final := {| file := file st; puts := S (puts st) |};
         trace := Log INFO (MsgUpdating record_id ip)
                  :: HttpPut (CLOUDFLARE_ZONE_ID w) (CLOUDFLARE_API_TOKEN w) record_id
                       {| body_type := "A"; body_name := name; body_content := ip;
                          body_ttl := 1; body_proxied := false |}
                  :: logs |}
    /\ update_calls logs = [] /\ checked logs = [].
Proof.
  unfold __update_cloudflare_dns_record, bind, logging, emit, next_put.
  cbn [result final trace app].
  destruct (put_reply w (puts st)) as [status_code text [j|e]|e];
    [destruct (status_code =? 200)%Z| destruct (status_code =? 200)%Z |];
    cbn [result final trace app];
    eexists; eexists; (split; [reflexivity|]); repeat split; reflexivity.
Qed.

(** ** One listed record *)

Lemma check_record_raises (w : world) (ip : string) (record : json) (st : state)
  (e : exn) :
  dict record = Err e ->
  check_record w ip record st = {| result := Raise e; final := st; trace := [] |}.
Proof. intros H. unfold check_record, bind. rewrite H. reflexivity. Qed.

(** A record of another type: nothing is logged, nothing is done. *)
Lemma check_record_other_type (w : world) (ip : string) (record : json)
  (st : state) (d : list (string * json)) :
  dict record = Ok d ->
  eq_str (dict_get d "type") "A" = false ->
  check_record w ip record st = {| result := Val tt; final := st; trace := [] |}.
Proof.
  intros H T. unfold check_record, bind. rewrite H. cbn [lift ret result final trace].
  rewrite T. reflexivity.
Qed.

Lemma check_record_not_wanted (w : world) (ip : string) (record : json)
  (st : state) (d : list (string * json)) :
  dict record = Ok d ->
  eq_str (dict_get d "type") "A" = true ->
  eq_opt_str (dict_get d "name") (CLOUDFLARE_RECORD_NAME w) = false ->
  check_record w ip record st =
    {| result := Val tt; final := st;
       trace := [Log INFO (MsgChecking (dict_get d "name"));
                 Log INFO (MsgNotWanted (dict_get d "name"))] |}.
Proof.
  intros H T N. unfold check_record, bind. rewrite H.
  cbn [lift ret result final trace]. rewrite T.
  unfold logging, emit. cbn [result final trace]. rewrite N. reflexivity.
Qed.

Lemma check_record_up_to_date (w : world) (ip : string) (record : json)
  (st : state) (d : list (string * json)) :
  dict record = Ok d ->
  eq_str (dict_get d "type") "A" = true ->
  eq_opt_str (dict_get d "name") (CLOUDFLARE_RECORD_NAME w) = true ->
  eq_str (dict_get d "content") ip = true ->
  check_record w ip record st =
    {| result := Val tt; final := st;
       trace := [Log INFO (MsgChecking (dict_get d "name"));
                 Log INFO (MsgUpToDate (dict_get d "name"))] |}.
Proof.
  intros H T N C. unfold check_record, bind. rewrite H.
  cbn [lift ret result final trace]. rewrite T.
  unfold logging, emit. cbn [result final trace]. rewrite N, C. reflexivity.
Qed.

Lemma check_record_mismatch (w : world) (ip : string) (record : json)
  (st : state) (d : list (string * json)) :
  dict record = Ok d ->
  eq_str (dict_get d "type") "A" = true ->
  eq_opt_str (dict_get d "name") (CLOUDFLARE_RECORD_NAME w) = true ->
  eq_str (dict_get d "content") ip = false ->
  exists logs : list event,
    check_record w ip record st =
      {| result := Val tt;
         final := {| file := file st; puts := S (puts st) |};
         trace := Log INFO (MsgChecking (dict_get d "name"))
                  :: Log INFO (MsgUpdatingFromTo (dict_get d "name")
                                 (dict_get d "content") ip)
                  :: Log INFO (MsgUpdating (dict_get d "id") ip)
                  :: HttpPut (CLOUDFLARE_ZONE_ID w) (CLOUDFLARE_API_TOKEN w)
                       (dict_get d "id")
                       {| body_type := "A"; body_name := dict_get d "name";
                          body_content := ip; body_ttl := 1; body_proxied := false |}
                  :: logs |}
    /\ update_calls logs = [] /\ checked logs = [].
Proof.
  intros H T N C.
  destruct (update_outcome w (dict_get d "id") ip (dict_get d "name") st)
    as (v & logs & E & U & K).
  exists logs. split; [|auto].
  unfold check_record, bind. rewrite H.
  cbn [lift ret result final trace]. rewrite T.
  unfold logging, emit. cbn [result final trace]. rewrite N, C.
  cbn [andb negb]. rewrite E. cbn [result final trace app].
  rewrite app_nil_r. reflexivity.
Qed.

(** What every case has in common. *)
Lemma check_record_outcome (w : world) (ip : string) (record : json)
  (st : state) (d : list (string * json)) :
  dict record = Ok d ->
  result (check_record w ip record st) = Val tt
  /\ file (final (check_record w ip record st)) = file st
  /\ update_calls (trace (check_record w ip record st))
     = (if wants_update w ip d then [call_for ip d] else [])
  /\ checked (trace (check_record w ip record st))
     = (if eq_str (dict_get d "type") "A" then [dict_get d "name"] else []).
Proof.
  intros H. unfold wants_update.
  destruct (eq_str (dict_get d "type") "A") eqn:T.
  - destruct (eq_opt_str (dict_get d "name") (CLOUDFLARE_RECORD_NAME w)) eqn:N.
    + destruct (eq_str (dict_get d "content") ip) eqn:C.
      * rewrite (check_record_up_to_date w ip record st d H T N C).
        repeat split; reflexivity.
      * destruct (check_record_mismatch w ip record st d H T N C)
          as (logs & E & U & K).
        rewrite E. cbn [result final trace file]. repeat split; auto.
        -- cbn [update_calls flat_map app andb negb]. fold (update_calls logs).
           rewrite U. reflexivity.
        -- cbn [checked flat_map app]. fold (checked logs). rewrite K. reflexivity.
    + rewrite (check_record_not_wanted w ip record st d H T N).
      repeat split; reflexivity.
  - rewrite (check_record_other_type w ip record st d H T).
    repeat split; reflexivity.
Qed.

(** ** The loop over the listed records *)

Lemma loop_any_state (w : world) (ip : string) (items : list json) (st st' : state) :
  result (for_each items (check_record w ip) st)
  = result (for_each items (check_record w ip) st')
  /\ update_calls (trace (for_each items (check_record w ip) st))
     = update_calls (trace (for_each items (check_record w ip) st'))
  /\ checked (trace (for_each items (check_record w ip) st))
     = checked (trace (for_each items (check_record w ip) st')).
Proof.
  revert st st'. induction items as [|r rest IH]; intros st st'.
  - repeat split; reflexivity.
  - cbn [for_each]. unfold bind. destruct (dict r) as [d|e] eqn:D.
    + destruct (check_record_outcome w ip r st d D) as (R & _ & U & K).
      destruct (check_record_outcome w ip r st' d D) as (R' & _ & U' & K').
      rewrite R, R'. cbn [result final trace].
      rewrite !update_calls_app, !checked_app, U, U', K, K'.
      destruct (IH (final (check_record w ip r st)) (final (check_record w ip r st')))
        as (IR & IU & IK).
      rewrite IR, IU, IK. repeat split; reflexivity.
    + rewrite !(check_record_raises w ip r _ e D). repeat split; reflexivity.
Qed.

Lemma loop_file (w : world) (ip : string) (items : list json) (st : state) :
  file (final (for_each items (check_record w ip) st)) = file st.
Proof.
  revert st. induction items as [|r rest IH]; intros st; [reflexivity|].
  cbn [for_each]. unfold bind. destruct (dict r) as [d|e] eqn:D.
  - destruct (check_record_outcome w ip r st d D) as (R & F & _).
    rewrite R. cbn [result final trace]. now rewrite IH.
  - rewrite (check_record_raises w ip r _ e D). reflexivity.
Qed.

Lemma calls_on_cons (w : world) (ip : string) (r : json) (rest : list json) :
  calls_on w ip (r :: rest)
  = match dict r with
    | Ok d => (if wants_update w ip d then [call_for ip d] else [])
              ++ calls_on w ip rest
    | Err _ => []
    end.
Proof.
  unfold calls_on. cbn [for_each]. unfold bind. destruct (dict r) as [d|e] eqn:D.
  - destruct (check_record_outcome w ip r {| file := None; puts := 0 |} d D)
      as (R & _ & U & _).
    rewrite R. cbn [result final trace]. rewrite update_calls_app, U.
    f_equal. apply loop_any_state.
  - rewrite (check_record_raises w ip r _ e D). reflexivity.
Qed.

Lemma calls_on_app (w : world) (ip : string) (l1 l2 : list json) :
  forallb converts l1 = true ->
  calls_on w ip (l1 ++ l2) = calls_on w ip l1 ++ calls_on w ip l2.
Proof.
  induction l1 as [|r l1 IH]; intros H; [reflexivity|].
  cbn [forallb] in H. apply andb_true_iff in H. destruct H as [Hr Hl].
  cbn [app]. rewrite !calls_on_cons. unfold converts in Hr.
  destruct (dict r) as [d|e]; [|discriminate].
  rewrite IH by assumption. now rewrite app_assoc.
Qed.

(** Over records [dict] accepts the loop runs to its end. *)
Lemma loop_completes (w : world) (ip : string) (items : list json) (st : state) :
  forallb converts items = true ->
  result (for_each items (check_record w ip) st) = Val tt
  /\ checked (trace (for_each items (check_record w ip) st))
     = flat_map checking_line items.
Proof.
  revert st. induction items as [|r rest IH]; intros st H.
  - split; reflexivity.
  - cbn [forallb] in H. apply andb_true_iff in H. destruct H as [Hr Hl].
    unfold converts in Hr. cbn [for_each flat_map]. unfold bind, checking_line.
    destruct (dict r) as [d|e] eqn:D; [|discriminate].
    destruct (check_record_outcome w ip r st d D) as (R & _ & _ & K).
    rewrite R. cbn [result final trace]. rewrite checked_app, K.
    destruct (IH (final (check_record w ip r st)) Hl) as [IR IK].
    rewrite IR, IK. split; reflexivity.
Qed.

(** Every update call of the loop is the call for a listed record
    that passes the three tests, and there is at most one per such
    record. *)
Lemma calls_on_sound (w : world) (ip : string) (items : list json) :
  (forall call, In call (calls_on w ip items) ->
     exists r d, In r items /\ dict r = Ok d
                 /\ wants_update w ip d = true /\ call = call_for ip d)
  /\ length (calls_on w ip items)
     <= length (filter (fun r => match dict r with
                                 | Ok d => wants_update w ip d
                                 | Err _ => false
                                 end) items).
Proof.
  induction items as [|r rest [IH IL]].
  - split; [intros call []|reflexivity].
  - rewrite calls_on_cons. cbn [filter]. destruct (dict r) as [d|e] eqn:D.
    + destruct (wants_update w ip d) eqn:W; cbn [app].
      * split.
        -- intros call [<-|Hc].
           ++ exists r, d. repeat split; auto. now left.
           ++ destruct (IH call Hc) as (r' & d' & I' & D' & W' & E').
              exists r', d'. repeat split; auto. now right.
        -- cbn [length]. lia.
      * split; [|exact IL].
        intros call Hc. destruct (IH call Hc) as (r' & d' & I' & D' & W' & E').
        exists r', d'. repeat split; auto. now right.
    + split; [intros call []|cbn [length]; lia].
Qed.

(** ** The run, stage by stage *)

Lemma main_stretches (w : world) :
  main w =
    (logging INFO MsgExecuting ;;
     __rate_limit w ;;
     public_ip_address <- __get_public_ip w ;;
     match public_ip_address with
     | Some ip => if (ip =? "") then logging ERROR MsgNoPublicIp else main_after_ip w ip
     | None => logging ERROR MsgNoPublicIp
     end).
Proof. reflexivity. Qed.

Lemma after_list_no_records (w : world) (ip : string) (body : json) (st : state) :
  truthy body = false \/ has "result" body = Ok false ->
  main_after_list w ip body st =
    {| result := Val tt; final := st; trace := [Log ERROR MsgNoRecords] |}.
Proof.
  intros [H|H]; unfold main_after_list.
  - rewrite H. reflexivity.
  - destruct (truthy body); [|reflexivity].
    cbn [negb]. unfold bind. rewrite H. reflexivity.
Qed.

Lemma after_list_records (w : world) (ip : string) (kvs : list (string * json))
  (records : list json) (st : state) :
  assoc kvs "result" = Some (JArr records) ->
  main_after_list w ip (JObj kvs) st = for_each records (check_record w ip) st.
Proof.
  intros H. unfold main_after_list.
  assert (T : truthy (JObj kvs) = true) by (destruct kvs; [discriminate|reflexivity]).
  rewrite T. cbn [negb has getitem lift]. unfold bind. rewrite H.
  cbn [ret result final trace negb iter lift app].
  destruct (for_each records (check_record w ip) st) as [r f t]. reflexivity.
Qed.

(** Whatever the body, [main_after_list] either makes no update call or runs
    the loop over the items of [body["result"]]. *)
Lemma after_list_cases (w : world) (ip : string) (body : json) (st : state) :
  update_calls (trace (main_after_list w ip body st)) = []
  \/ exists v items, getitem body "result" = Ok v /\ iter v = Ok items
                     /\ main_after_list w ip body st = for_each items (check_record w ip) st.
Proof.
  unfold main_after_list. destruct (truthy body); [|now left].
  cbn [negb]. unfold bind.
  destruct (has "result" body) as [[|]|e]; cbn [lift ret raise result final trace negb];
    try now left.
  destruct (getitem body "result") as [v|e]; cbn [lift ret raise result final trace];
    try now left.
  destruct (iter v) as [items|e] eqn:I; cbn [lift ret raise result final trace app];
    try now left.
  right. exists v, items. repeat split; auto.
  destruct (for_each items (check_record w ip) st) as [r f t]. reflexivity.
Qed.

Lemma after_ip_stages (w : world) (ip : string) (st : state) :
  main_after_ip w ip st =
    match result (__get_cloudflare_dns_records w st) with
    | Val body =>
        {| result := result (main_after_list w ip body st);
           final := final (main_after_list w ip body st);
           trace := trace (__get_cloudflare_dns_records w st)
                    ++ trace (main_after_list w ip body st) |}
    | Exit c =>
        {| result := Exit c; final := st;
           trace := trace (__get_cloudflare_dns_records w st) |}
    | Raise e =>
        {| result := Raise e; final := st;
           trace := trace (__get_cloudflare_dns_records w st) |}
    end.
Proof.
  destruct (get_records_outcome w st) as (F & _).
  unfold main_after_ip, bind. rewrite F.
  destruct (result (__get_cloudflare_dns_records w st)); reflexivity.
Qed.

(** The run when the limiter does not return. *)
Lemma run_stopped (w : world) :
  result (__rate_limit w (initial w)) <> Val tt ->
  run w =
    {| result := match result (__rate_limit w (initial w)) with
                 | Val _ => Val tt
                 | Exit c => Exit c
                 | Raise e => Raise e
                 end;
       final := final (__rate_limit w (initial w));
       trace := Log INFO MsgExecuting :: trace (__rate_limit w (initial w)) |}.
Proof.
  intros H. unfold run. rewrite main_stretches.
  rewrite (bind_val (logging INFO MsgExecuting) _ _ tt eq_refl). cbn [logging emit result final trace app].
  destruct (result (__rate_limit w (initial w))) as [[]|c|e] eqn:R; [easy| |].
  - now rewrite (bind_exit _ _ _ c R).
  - now rewrite (bind_raise _ _ _ e R).
Qed.

(** The run when the limiter returns: the state it leaves, and the
    three ways the run goes on. *)
Lemma run_proceeds (w : world) :
  proceeds w ->
  resolver_error w = None ->
  exists (before : list event) (o : option string) (logs : list event),
    let st1 := {| file := Some (py_str (now w)); puts := 0 |} in
    let head := Log INFO MsgExecuting :: before
                ++ FileWrite (py_str (now w))
                :: DnsQuery "208.67.222.222" "myip.opendns.com" "A" :: logs in
    (before = [] \/ before = [FileRead])
    /\ __get_public_ip w st1 =
         {| result := Val o; final := st1;
            trace := DnsQuery "208.67.222.222" "myip.opendns.com" "A" :: logs |}
    /\ update_calls logs = [] /\ sleeps logs = [] /\ checked logs = []
    /\ run w =
         match o with
         | Some ip =>
             if (ip =? "")
             then {| result := Val tt; final := st1;
                     trace := head ++ [Log ERROR MsgNoPublicIp] |}
             else {| result := result (main_after_ip w ip st1);
                     final := final (main_after_ip w ip st1);
                     trace := head ++ trace (main_after_ip w ip st1) |}
         | None => {| result := Val tt; final := st1;
                      trace := head ++ [Log ERROR MsgNoPublicIp] |}
         end.
Proof.
  intros P Built. unfold proceeds in P.
  destruct (rate_limit_returns w (initial w) P) as [F T].
  cbn [initial puts] in F.
  destruct (public_ip_outcome w {| file := Some (py_str (now w)); puts := 0 |} Built)
    as (o & logs & E & U & S & K & _).
  assert (shape : exists before,
            (before = [] \/ before = [FileRead])
            /\ trace (__rate_limit w (initial w))
               = before ++ [FileWrite (py_str (now w))]).
  { destruct T as [T|T]; rewrite T.
    - exists []. split; [now left|reflexivity].
    - exists [FileRead]. split; [now right|reflexivity]. }
  destruct shape as (before & B & T').
  exists before, o, logs. cbn zeta. repeat split; auto.
  unfold run. rewrite main_stretches.
  rewrite (bind_val (logging INFO MsgExecuting) _ _ tt eq_refl). cbn [logging emit result final trace app].
  rewrite (bind_val _ _ _ tt P), F, T'. cbn [result final trace].
  assert (Ro : result (__get_public_ip w {| file := Some (py_str (now w)); puts := 0 |})
               = Val o) by now rewrite E.
  rewrite (bind_val _ _ _ o Ro), E. cbn [result final trace].
  destruct o as [ip|].
  - destruct (ip =? "").
    + cbn [result final trace app]. f_equal.
      rewrite <- !app_assoc. reflexivity.
    + cbn [app]. f_equal. f_equal. rewrite <- !app_assoc. reflexivity.
  - cbn [result final trace app]. f_equal. rewrite <- !app_assoc. reflexivity.
Qed.

(** The run when the limiter returns and [Resolver()] raises: the
    exception ends it right after the write. *)
Lemma run_unbuilt (w : world) (e : exn) :
  proceeds w ->
  resolver_error w = Some e ->
  exists before : list event,
    (before = [] \/ before = [FileRead])
    /\ run w =
         {| result := Raise e;
            final := {| file := Some (py_str (now w)); puts := 0 |};
            trace := Log INFO MsgExecuting :: before
                     ++ [FileWrite (py_str (now w))] |}.
Proof.
  intros P Unbuilt. unfold proceeds in P.
  destruct (rate_limit_returns w (initial w) P) as [F T].
  cbn [initial puts] in F.
  assert (shape : exists before,
            (before = [] \/ before = [FileRead])
            /\ trace (__rate_limit w (initial w))
               = before ++ [FileWrite (py_str (now w))]).
  { destruct T as [T|T]; rewrite T.
    - exists []. split; [now left|reflexivity].
    - exists [FileRead]. split; [now right|reflexivity]. }
  destruct shape as (before & B & T').
  exists before. split; [exact B|].
  pose proof (public_ip_unbuilt w {| file := Some (py_str (now w)); puts := 0 |} e Unbuilt)
    as E.
  unfold run. rewrite main_stretches.
  rewrite (bind_val (logging INFO MsgExecuting) _ _ tt eq_refl). cbn [logging emit result final trace app].
  rewrite (bind_val _ _ _ tt P), F, T'. cbn [result final trace].
  assert (Ro : result (__get_public_ip w {| file := Some (py_str (now w)); puts := 0 |})
               = Raise e) by now rewrite E.
  rewrite (bind_raise _ _ _ e Ro), E. cbn [result final trace].
  now rewrite app_nil_r.
Qed.

(** A run that resolves [ip] goes on with [main_after_ip], having made no
    update call, slept no second and checked no record so far. *)
Lemma run_resolves (w : world) (ip : string) :
  resolves w ip ->
  exists head : list event,
    let st1 := {| file := Some (py_str (now w)); puts := 0 |} in
    update_calls head = [] /\ sleeps head = [] /\ checked head = []
    /\ run w = {| result := result (main_after_ip w ip st1);
                  final := final (main_after_ip w ip st1);
                  trace := head ++ trace (main_after_ip w ip st1) |}.
Proof.
  intros (P & R & N).
  destruct (run_proceeds w P (returns_built w ip R))
    as (before & o & logs & B & E & U & S & K & Run).
  cbn zeta in *.
  assert (o = Some ip) as ->.
  { specialize (R {| file := Some (py_str (now w)); puts := 0 |}).
    rewrite E in R. cbn in R. congruence. }
  apply String.eqb_neq in N. rewrite N in Run.
  eexists. repeat split; [| | |exact Run].
  - destruct B as [-> | ->]; cbn; exact U.
  - destruct B as [-> | ->]; cbn; exact S.
  - destruct B as [-> | ->]; cbn; exact K.
Qed.

(** A run that is listed [records] goes on with the loop over them. *)
Lemma run_lists (w : world) (ip : string) (records : list json) :
  lists w ip records ->
  exists head : list event,
    let st1 := {| file := Some (py_str (now w)); puts := 0 |} in
    let loop := for_each records (check_record w ip) st1 in
    update_calls head = [] /\ checked head = []
    /\ run w = {| result := result loop; final := final loop;
                  trace := head ++ trace loop |}.
Proof.
  intros (Res & kvs & L & A).
  destruct (run_resolves w ip Res) as (head & U & S & K & Run). cbn zeta in *.
  set (st1 := {| file := Some (py_str (now w)); puts := 0 |}) in *.
  destruct (get_records_outcome w st1) as (_ & GU & GK & _).
  rewrite after_ip_stages, (L st1), (after_list_records w ip kvs records st1 A) in Run.
  cbn [result final trace] in Run.
  exists (head ++ trace (__get_cloudflare_dns_records w st1)).
  rewrite update_calls_app, checked_app, U, K, GU, GK.
  repeat split; auto. rewrite Run, app_assoc. reflexivity.
Qed.

Lemma after_list_file (w : world) (ip : string) (body : json) (st : state) :
  file (final (main_after_list w ip body st)) = file st.
Proof.
  unfold main_after_list. destruct (truthy body); [|reflexivity].
  cbn [negb]. unfold bind.
  destruct (has "result" body) as [[|]|e]; cbn [lift ret raise result final trace negb];
    try reflexivity.
  destruct (getitem body "result") as [v|e]; cbn [lift ret raise result final trace];
    try reflexivity.
  destruct (iter v) as [items|e]; cbn [lift ret raise result final trace];
    try reflexivity.
  pose proof (loop_file w ip items st) as F.
  destruct (result (for_each items (check_record w ip) st)); exact F.
Qed.

Lemma after_ip_file (w : world) (ip : string) (st : state) :
  file (final (main_after_ip w ip st)) = file st.
Proof.
  rewrite after_ip_stages.
  destruct (result (__get_cloudflare_dns_records w st)); try reflexivity.
  apply after_list_file.
Qed.

Lemma public_ip_returns (w : world) (ip : string) (rest : list string) :
  resolver_error w = None ->
  dns w = DnsAnswer (ip :: rest) -> returns (__get_public_ip w) (Some ip).
Proof.
  intros B H st. unfold __get_public_ip, new_resolver, bind. rewrite B, H.
  reflexivity.
Qed.

(** ** The retry loop, attempt by attempt *)

Lemma not_failure (r : http_reply) :
  is_failure r = false -> exists text body, r = Response 200 text (Parsed body).
Proof.
  destruct r as [status_code text [j|e]|e]; cbn; try discriminate.
  intros H. apply negb_false_iff, Z.eqb_eq in H. subst. now exists text, j.
Qed.

(** One attempt that fails: the request, one error line, the sleep,
    then the attempts that remain. *)
Lemma get_attempts_retry (w : world) (a : nat) (rest : list nat) (st : state) :
  is_failure (get_reply w a) = true ->
  exists line : message,
    get_attempts w (a :: rest) st =
      {| result := result (get_attempts w rest st);
         final := st;
         trace := list_request w :: Log ERROR line
                  :: Sleep (RETRY_BACKOFF_SECONDS * a)
                  :: trace (get_attempts w rest st) |}.
Proof.
  intros H. destruct (get_attempts_outcome w rest st) as (F & _).
  cbn [get_attempts]. unfold bind, logging, emit, list_request.
  cbn [result final trace].
  destruct (get_reply w a) as [status_code text [j|e]|e];
    [destruct (status_code =? 200)%Z eqn:S
    |destruct (status_code =? 200)%Z eqn:S|];
    cbn [is_failure] in H; try (rewrite S in H; discriminate);
    cbn [result final trace app]; rewrite F;
    eexists; destruct (result (get_attempts w rest st)); reflexivity.
Qed.

(** One attempt that succeeds: the request and nothing else. *)
Lemma get_attempts_success (w : world) (a : nat) (rest : list nat) (st : state)
  (text : string) (body : json) :
  get_reply w a = Response 200 text (Parsed body) ->
  get_attempts w (a :: rest) st =
    {| result := Val body; final := st; trace := [list_request w] |}.
Proof.
  intros H. cbn [get_attempts]. unfold bind, emit. cbn [result final trace].
  rewrite H. reflexivity.
Qed.

Lemma network_of_retry (w : world) (line : message) (n : nat) (t : list event) :
  filter is_network (list_request w :: Log ERROR line :: Sleep n :: t)
  = list_request w :: filter is_network t.
Proof. reflexivity. Qed.

Lemma sleeps_of_retry (w : world) (line : message) (n : nat) (t : list event) :
  sleeps (list_request w :: Log ERROR line :: Sleep n :: t) = n :: sleeps t.
Proof. reflexivity. Qed.

(** The retry loop over attempts [s, s + n): it makes at most [n]
    requests and sleeps after each of the first [j] attempts, for
    some [j <= n]; it emits nothing but requests, log lines and
    sleeps. *)
Lemma get_attempts_bounds (w : world) (n s : nat) (st : state) :
  forallb of_list_call (trace (get_attempts w (seq s n) st)) = true
  /\ (exists k, k <= n
        /\ filter is_network (trace (get_attempts w (seq s n) st))
           = repeat (list_request w) k)
  /\ (exists j, j <= n
        /\ sleeps (trace (get_attempts w (seq s n) st))
           = map (fun a => RETRY_BACKOFF_SECONDS * a) (seq s j)).
Proof.
  revert s. induction n as [|n IH]; intros s.
  - cbn. repeat split; [exists 0|exists 0]; split; auto.
  - cbn [seq]. destruct (is_failure (get_reply w s)) eqn:Fl.
    + destruct (get_attempts_retry w s (seq (S s) n) st Fl) as (line & E).
      destruct (IH (S s)) as (K & (k & Hk & Nk) & (j & Hj & Sj)).
      rewrite E. cbn [trace]. repeat split.
      * cbn. exact K.
      * exists (S k). split; [lia|]. now rewrite network_of_retry, Nk.
      * exists (S j). split; [lia|].
        rewrite sleeps_of_retry, Sj. reflexivity.
    + destruct (not_failure _ Fl) as (text & body & G).
      rewrite (get_attempts_success w s (seq (S s) n) st text body G).
      cbn [trace]. repeat split.
      * exists 1. split; [lia|reflexivity].
      * exists 0. split; [lia|reflexivity].
Qed.

(** The retry loop when attempt [k] is the first that does not fail. *)
Lemma get_attempts_first_success (w : world) (n s k : nat) (st : state)
  (text : string) (body : json) :
  s <= k < s + n ->
  (forall a, s <= a < k -> is_failure (get_reply w a) = true) ->
  get_reply w k = Response 200 text (Parsed body) ->
  result (get_attempts w (seq s n) st) = Val body
  /\ filter is_network (trace (get_attempts w (seq s n) st))
     = repeat (list_request w) (S (k - s))
  /\ sleeps (trace (get_attempts w (seq s n) st))
     = map (fun a => RETRY_BACKOFF_SECONDS * a) (seq s (k - s)).
Proof.
  revert s. induction n as [|n IH]; intros s R Fl G; [lia|].
  cbn [seq]. destruct (Nat.eq_dec s k) as [->|N].
  - rewrite (get_attempts_success w k (seq (S k) n) st text body G).
    rewrite Nat.sub_diag. repeat split.
  - assert (Fs : is_failure (get_reply w s) = true) by (apply Fl; lia).
    destruct (get_attempts_retry w s (seq (S s) n) st Fs) as (line & E).
    destruct (IH (S s)) as (Rv & Nk & Sk); [lia|intros a Ha; apply Fl; lia|exact G|].
    rewrite E. cbn [result trace].
    replace (k - s) with (S (k - S s)) by lia. repeat split.
    + exact Rv.
    + now rewrite network_of_retry, Nk.
    + rewrite sleeps_of_retry, Sk. reflexivity.
Qed.

(** When the retry loop over attempts [s, s + n) returns a body, it is
    the body of the first attempt that did not fail. *)
Lemma get_attempts_returned (w : world) (n s : nat) (st : state) (body : json) :
  result (get_attempts w (seq s n) st) = Val body ->
  exists k text,
    s <= k < s + n
    /\ (forall a, s <= a < k -> is_failure (get_reply w a) = true)
    /\ get_reply w k = Response 200 text (Parsed body).
Proof.
  revert s. induction n as [|n IH]; intros s R; [discriminate|].
  cbn [seq] in R. destruct (is_failure (get_reply w s)) eqn:Fl.
  - destruct (get_attempts_retry w s (seq (S s) n) st Fl) as (line & E).
    rewrite E in R. cbn [result] in R.
    destruct (IH (S s) R) as (k & text & Hk & Fk & Gk).
    exists k, text. split; [lia|]. split; [|exact Gk].
    intros a Ha. destruct (Nat.eq_dec a s) as [->|N]; [exact Fl|apply Fk; lia].
  - destruct (not_failure _ Fl) as (text & b & G).
    rewrite (get_attempts_success w s (seq (S s) n) st text b G) in R.
    injection R as ->. exists s, text. split; [lia|]. split; [|exact G].
    intros a Ha. lia.
Qed.

(** The body the list call returns to a run is the body of the first
    of the 3 attempts that does not fail, from whatever state. *)
Lemma get_records_returned (w : world) (st : state) (body : json) :
  result (__get_cloudflare_dns_records w st) = Val body ->
  exists attempt text,
    1 <= attempt <= 3
    /\ (forall earlier, 1 <= earlier < attempt ->
          is_failure (get_reply w earlier) = true)
    /\ get_reply w attempt = Response 200 text (Parsed body)
    /\ returns (__get_cloudflare_dns_records w) body.
Proof.
  intros R.
  assert (R' : result (get_attempts w (seq 1 MAX_RETRIES) st) = Val body).
  { revert R. unfold __get_cloudflare_dns_records, bind, logging, emit.
    cbn [result final trace].
    now destruct (result (get_attempts w (seq 1 MAX_RETRIES) st)). }
  destruct (get_attempts_returned w MAX_RETRIES 1 st body R')
    as (k & text & Hk & Fk & Gk).
  exists k, text. unfold MAX_RETRIES in Hk. repeat split; try lia; auto.
  intros st'.
  destruct (get_attempts_first_success w MAX_RETRIES 1 k st' text body)
    as (Rv & _); [unfold MAX_RETRIES; lia|exact Fk|exact Gk|].
  unfold __get_cloudflare_dns_records, bind, logging, emit.
  cbn [result final trace]. now rewrite Rv.
Qed.

(** The loop over any listing: it reaches the items before the first
    one [dict] rejects, and for those it makes the calls due and logs
    the checking lines. *)
Lemma loop_reached (w : world) (ip : string) (items : list json) (st : state) :
  exists done later : list json,
    items = done ++ later
    /\ forallb converts done = true
    /\ (later = [] \/ exists r l, later = r :: l /\ converts r = false)
    /\ update_calls (trace (for_each items (check_record w ip) st))
       = due_calls w ip done
    /\ checked (trace (for_each items (check_record w ip) st))
       = flat_map checking_line done.
Proof.
  revert st. induction items as [|r rest IH]; intros st.
  - exists [], []. repeat split; auto.
  - destruct (dict r) as [d|e] eqn:D.
    + destruct (check_record_outcome w ip r st d D) as (R & _ & U & K).
      destruct (IH (final (check_record w ip r st)))
        as (done & later & -> & C & L & IU & IK).
      exists (r :: done), later. repeat split; auto.
      * cbn [forallb]. unfold converts at 1. now rewrite D, C.
      * cbn [for_each]. unfold bind. rewrite R. cbn [trace].
        rewrite update_calls_app, U, IU. unfold due_calls. cbn [flat_map].
        now rewrite D.
      * cbn [for_each]. unfold bind. rewrite R. cbn [trace].
        rewrite checked_app, K, IK. cbn [flat_map]. unfold checking_line at 2.
        now rewrite D.
    + exists [], (r :: rest). repeat split; auto.
      * right. exists r, rest. split; [reflexivity|]. unfold converts. now rewrite D.
      * cbn [for_each]. unfold bind.
        now rewrite (check_record_raises w ip r st e D).
      * cbn [for_each]. unfold bind.
        now rewrite (check_record_raises w ip r st e D).
Qed.

(** ** Properties of the specification *)

(** C1, as amended: when the public IP resolves to [ip], the list call
    returns a record of type "A" whose name is the configured record
    name and whose content differs from [ip], and the items listed
    before it are records [dict] accepts, exactly one update call is
    issued for that record: between the calls made for the records listed
    before it and those made for the records listed after it stands
    one call, with content [ip], the record's own name and the
    record's own id; and handling the record makes that call and no
    other. *)
Theorem C1_mismatch_updated_once (w : world) (ip : string) (l1 l2 : list json)
  (r : json) (d : list (string * json)) :
  lists w ip (l1 ++ r :: l2) ->
  forallb converts l1 = true ->
  dict r = Ok d ->
  eq_str (dict_get d "type") "A" = true ->
  eq_opt_str (dict_get d "name") (CLOUDFLARE_RECORD_NAME w) = true ->
  eq_str (dict_get d "content") ip = false ->
  update_calls (trace (run w)) =
    calls_on w ip l1
    ++ (dict_get d "id",
        {| body_type := "A"; body_name := dict_get d "name"; body_content := ip;
           body_ttl := 1; body_proxied := false |})
    :: calls_on w ip l2
  /\ forall st,
       update_calls (trace (check_record w ip r st)) =
         [(dict_get d "id",
           {| body_type := "A"; body_name := dict_get d "name"; body_content := ip;
              body_ttl := 1; body_proxied := false |})].
Proof.
  intros L H1 D T N C. split.
  - destruct (run_lists w ip _ L) as (head & U & _ & Run). cbn zeta in Run.
    rewrite Run. cbn [trace]. rewrite update_calls_app, U. cbn [app].
    destruct (loop_any_state w ip (l1 ++ r :: l2)
                {| file := Some (py_str (now w)); puts := 0 |}
                {| file := None; puts := 0 |}) as (_ & E & _).
    rewrite E. fold (calls_on w ip (l1 ++ r :: l2)).
    rewrite (calls_on_app w ip l1 (r :: l2) H1), calls_on_cons, D.
    unfold wants_update. rewrite T, N, C. reflexivity.
  - intros st. destruct (check_record_outcome w ip r st d D) as (_ & _ & U & _).
    rewrite U. unfold wants_update. rewrite T, N, C. reflexivity.
Qed.

(** C2: when the list response contains a record of type "A" whose
    name is the configured record name and whose content equals the
    resolved public IP, no update call is issued for that record: the
    run's update calls are those made for the records before it and
    after it, and handling the record itself only logs "checking" and
    "already up to date" and leaves the state as it was. *)
Theorem C2_up_to_date_not_updated (w : world) (ip : string) (l1 l2 : list json)
  (r : json) (d : list (string * json)) :
  lists w ip (l1 ++ r :: l2) ->
  forallb converts l1 = true ->
  dict r = Ok d ->
  eq_str (dict_get d "type") "A" = true ->
  eq_opt_str (dict_get d "name") (CLOUDFLARE_RECORD_NAME w) = true ->
  eq_str (dict_get d "content") ip = true ->
  update_calls (trace (run w)) = calls_on w ip l1 ++ calls_on w ip l2
  /\ forall st, check_record w ip r st =
                  {| result := Val tt; final := st;
                     trace := [Log INFO (MsgChecking (dict_get d "name"));
                               Log INFO (MsgUpToDate (dict_get d "name"))] |}.
Proof.
  intros L H1 D T N C. split.
  - destruct (run_lists w ip _ L) as (head & U & _ & Run). cbn zeta in Run.
    rewrite Run. cbn [trace]. rewrite update_calls_app, U. cbn [app].
    destruct (loop_any_state w ip (l1 ++ r :: l2)
                {| file := Some (py_str (now w)); puts := 0 |}
                {| file := None; puts := 0 |}) as (_ & E & _).
    rewrite E. fold (calls_on w ip (l1 ++ r :: l2)).
    rewrite (calls_on_app w ip l1 (r :: l2) H1), calls_on_cons, D.
    unfold wants_update. rewrite T, N, C. reflexivity.
  - intros st. now apply check_record_up_to_date.
Qed.

(** C3: when the timestamp file holds [t0] and the run starts at a
    time [now] with [now - t0 < 55] (binary64 subtraction and
    comparison, as in the source), the run makes no DNS query and no
    HTTP call and the process ends with exit code 0. *)
Theorem C3_rate_limited_run_is_silent (w : world) (text : string) (t0 : float) :
  last_run_file w = Some text ->
  float_or_zero (strip text) = Ok t0 ->
  PrimFloat.ltb (PrimFloat.sub (now w) t0) 55%float = true ->
  run w = {| result := Exit 0; final := initial w;
             trace := [Log INFO MsgExecuting; FileRead; Log INFO MsgRateLimitHit] |}
  /\ exit_code (result (run w)) = 0%Z
  /\ filter is_network (trace (run w)) = [].
Proof.
  intros F E L.
  assert (B := rate_limit_blocked w (initial w) text t0 F E L).
  assert (Run : run w = {| result := Exit 0; final := initial w;
             trace := [Log INFO MsgExecuting; FileRead; Log INFO MsgRateLimitHit] |}).
  { rewrite run_stopped; rewrite B; [reflexivity|discriminate]. }
  rewrite Run. repeat split; reflexivity.
Qed.

(** C4: in every run the rate limiter lets through, the clock's
    reading is written to the timestamp file before any DNS or HTTP
    operation, and it is still the file's content when the run ends,
    however the rest of the run ends (no condition is put on the
    resolver, the list call or the update calls). *)
Theorem C4_timestamp_written_before_network (w : world) :
  proceeds w ->
  exists before after : list event,
    trace (run w) = before ++ FileWrite (py_str (now w)) :: after
    /\ filter is_network before = []
    /\ file (final (run w)) = Some (py_str (now w)).
Proof.
  intros P.
  destruct (resolver_error w) as [e|] eqn:Built.
  { destruct (run_unbuilt w e P Built) as (before & B & Run).
    exists (Log INFO MsgExecuting :: before), [].
    rewrite Run. cbn [trace final file]. repeat split.
    destruct B as [-> | ->]; reflexivity. }
  destruct (run_proceeds w P Built) as (before & o & logs & B & _ & _ & _ & _ & Run).
  cbn zeta in Run.
  assert (Q : filter is_network (Log INFO MsgExecuting :: before) = [])
    by (destruct B as [-> | ->]; reflexivity).
  destruct o as [ip|]; [destruct (ip =? "")|]; rewrite Run; cbn [trace final file].
  - exists (Log INFO MsgExecuting :: before). eexists. repeat split; auto.
    cbn [app]. rewrite <- app_assoc. reflexivity.
  - exists (Log INFO MsgExecuting :: before). eexists. repeat split; auto.
    + cbn [app]. rewrite <- app_assoc. reflexivity.
    + apply after_ip_file.
  - exists (Log INFO MsgExecuting :: before). eexists. repeat split; auto.
    cbn [app]. rewrite <- app_assoc. reflexivity.
Qed.

(** C5, as amended: when the timestamp file is absent, or is blank
    (empty once stripped), in which case the last run is read as zero
    and the clock is not less than 55 s from it, the rate limiter lets
    the run through: it records the clock's reading, and the run goes
    on to the resolver and, where [Resolver()] builds, to the DNS
    query. *)
Theorem C5_absent_or_blank_file_proceeds (w : world) :
  last_run_file w = None
  \/ (exists text, last_run_file w = Some text /\ strip text = ""
                   /\ PrimFloat.ltb (PrimFloat.sub (now w) 0%float) 55%float = false) ->
  proceeds w
  /\ file (final (__rate_limit w (initial w))) = Some (py_str (now w))
  /\ (resolver_error w = None ->
      In (DnsQuery "208.67.222.222" "myip.opendns.com" "A") (trace (run w))).
Proof.
  intros H.
  assert (P : proceeds w).
  { unfold proceeds. destruct H as [F|(text & F & B & L)].
    - now rewrite (rate_limit_absent w (initial w) F).
    - assert (E : float_or_zero (strip text) = Ok 0%float)
        by (unfold float_or_zero; now rewrite B).
      now rewrite (rate_limit_allowed w (initial w) text _ F E L). }
  split; [exact P|]. split.
  - now destruct (rate_limit_returns w (initial w) P) as [-> _].
  - intros Built.
    destruct (run_proceeds w P Built)
      as (before & o & logs & _ & _ & _ & _ & _ & Run).
    cbn zeta in Run.
    assert (I : forall tail : list event,
              In (DnsQuery "208.67.222.222" "myip.opendns.com" "A")
                 ((Log INFO MsgExecuting
                   :: before ++ FileWrite (py_str (now w))
                      :: DnsQuery "208.67.222.222" "myip.opendns.com" "A" :: logs)
                  ++ tail)).
    { intros tail. apply in_or_app. left. right. apply in_or_app. right.
      right. now left. }
    destruct o as [ip|]; [destruct (ip =? "")|]; rewrite Run; apply I.
Qed.

(** C6: when the run reaches the list call and each of its 3 attempts
    fails (a response other than 200, a transport error, or a 200
    whose body does not parse), the process ends with exit code 1, no
    update call is made, and the run sleeps 5, 10 and 15 seconds, 30 in
    all: [5 * attempt] after each failed attempt. *)
Theorem C6_list_call_exhausted (w : world) (ip : string) :
  resolves w ip ->
  (forall attempt, 1 <= attempt <= 3 -> is_failure (get_reply w attempt) = true) ->
  result (run w) = Exit 1
  /\ exit_code (result (run w)) <> 0%Z
  /\ update_calls (trace (run w)) = []
  /\ sleeps (trace (run w)) = [5 * 1; 5 * 2; 5 * 3]
  /\ list_sum (sleeps (trace (run w))) = 5 + 10 + 15.
Proof.
  intros Res Fail.
  destruct (run_resolves w ip Res) as (head & U & S & _ & Run). cbn zeta in Run.
  set (st1 := {| file := Some (py_str (now w)); puts := 0 |}) in *.
  rewrite after_ip_stages in Run.
  destruct (get_records_outcome w st1)
    as (_ & GU & _ & [(body & a & t & _ & Ia & Ga)|(Re & _ & Sl)]).
  - specialize (Fail a Ia). rewrite Ga in Fail. discriminate.
  - rewrite Re in Run. cbn [result final trace] in Run. rewrite Run.
    cbn [result trace exit_code].
    rewrite update_calls_app, sleeps_app, U, S, GU, Sl.
    repeat split; try reflexivity. discriminate.
Qed.

(** C7, as amended: in every run, whatever the list response holds,
    either no update call is made, or the run resolved an address,
    its list call returned the body of the first of its 3 attempts
    that did not fail, and the update calls are exactly the calls due
    for the items of the listed result the loop reaches (those before
    the first item [dict] rejects), in list order: one call for each
    item of type "A" whose name equals the configured record name and
    whose content differs from the address, and none for any other
    item.  So no listed record is updated twice, and an item of
    another type or name never triggers an update. *)
Theorem C7_updates_only_wanted_records (w : world) :
  update_calls (trace (run w)) = []
  \/ exists (ip : string) (rest : list string) (attempt : nat) (text : string)
            (body v : json) (items done later : list json),
      dns w = DnsAnswer (ip :: rest)
      /\ 1 <= attempt <= 3
      /\ (forall earlier, 1 <= earlier < attempt ->
            is_failure (get_reply w earlier) = true)
      /\ get_reply w attempt = Response 200 text (Parsed body)
      /\ returns (__get_cloudflare_dns_records w) body
      /\ getitem body "result" = Ok v
      /\ iter v = Ok items
      /\ items = done ++ later
      /\ forallb converts done = true
      /\ (later = [] \/ exists r l, later = r :: l /\ converts r = false)
      /\ update_calls (trace (run w)) = due_calls w ip done.
Proof.
  destruct (result (__rate_limit w (initial w))) as [[]|c|e] eqn:R.
  2,3: left; rewrite run_stopped by (rewrite R; discriminate);
       cbn [trace update_calls flat_map app];
       apply (rate_limit_calls w (initial w)).
  destruct (resolver_error w) as [e|] eqn:Built.
  { left. destruct (run_unbuilt w e R Built) as (before & B & Run).
    rewrite Run. cbn [trace]. destruct B as [-> | ->]; reflexivity. }
  destruct (run_proceeds w R Built) as (before & o & logs & B & E & U & _ & _ & Run).
  cbn zeta in Run.
  set (st1 := {| file := Some (py_str (now w)); puts := 0 |}) in *.
  assert (H : update_calls (Log INFO MsgExecuting :: before
                            ++ FileWrite (py_str (now w))
                            :: DnsQuery "208.67.222.222" "myip.opendns.com" "A"
                            :: logs) = [])
    by (destruct B as [-> | ->]; cbn; exact U).
  destruct o as [ip|]; [destruct (ip =? "")|].
  1,3: left; rewrite Run; cbn [trace]; rewrite update_calls_app, H; reflexivity.
  assert (T : update_calls (trace (run w)) = update_calls (trace (main_after_ip w ip st1)))
    by (rewrite Run; cbn [trace]; now rewrite update_calls_app, H).
  rewrite T. clear T Run.
  destruct (public_ip_outcome w st1 Built) as (o' & logs' & E' & _ & _ & _ & Dns).
  rewrite E in E'. injection E' as <- <-.
  destruct (Dns ip eq_refl) as (rest & Hd).
  rewrite after_ip_stages.
  destruct (get_records_outcome w st1) as (_ & GU & _ & _).
  destruct (result (__get_cloudflare_dns_records w st1)) as [body|c|e] eqn:Rv;
    cbn [trace].
  2,3: left; exact GU.
  rewrite update_calls_app, GU. cbn [app].
  destruct (after_list_cases w ip body st1) as [Z|(v & items & G & I & D)];
    [now left|].
  right.
  destruct (get_records_returned w st1 body Rv) as (a & t & Ha & Fa & Ga & Ret).
  destruct (loop_reached w ip items st1) as (done & later & Split & C & L & Calls & _).
  exists ip, rest, a, t, body, v, items, done, later.
  rewrite D. repeat split; auto; lia.
Qed.

(** C8, as amended: the "checking record" line is logged for the
    listed records of type "A" that the loop reaches, and for no
    other.  The loop reaches the items listed before the first one
    [dict] rejects (all of them when the listing holds only records);
    the names so logged are those of the reached records of type "A",
    in order; handling a record of type "A" starts with that line;
    handling a record of another type logs nothing at all and changes
    nothing. *)
Theorem C8_checking_line_for_A_records_only (w : world) (ip : string)
  (records : list json) :
  lists w ip records ->
  exists done later : list json,
    records = done ++ later
    /\ forallb converts done = true
    /\ (later = [] \/ exists r l, later = r :: l /\ converts r = false)
    /\ checked (trace (run w)) = flat_map checking_line done
    /\ forall r d st,
         dict r = Ok d ->
         (eq_str (dict_get d "type") "A" = true ->
          exists rest, trace (check_record w ip r st)
                       = Log INFO (MsgChecking (dict_get d "name")) :: rest)
         /\ (eq_str (dict_get d "type") "A" = false ->
             check_record w ip r st
             = {| result := Val tt; final := st; trace := [] |}).
Proof.
  intros L.
  destruct (run_lists w ip _ L) as (head & _ & K & Run). cbn zeta in Run.
  destruct (loop_reached w ip records {| file := Some (py_str (now w)); puts := 0 |})
    as (done & later & Split & C & Lt & _ & Chk).
  exists done, later. repeat split; auto.
  - rewrite Run. cbn [trace]. rewrite checked_app, K. cbn [app]. exact Chk.
  - intros T.
    destruct (eq_opt_str (dict_get d "name") (CLOUDFLARE_RECORD_NAME w)) eqn:N.
    + destruct (eq_str (dict_get d "content") ip) eqn:Cn.
      * rewrite (check_record_up_to_date w ip r st d H T N Cn). now eexists.
      * destruct (check_record_mismatch w ip r st d H T N Cn) as (logs & E & _).
        rewrite E. now eexists.
    + rewrite (check_record_not_wanted w ip r st d H T N). now eexists.
  - intros T. now apply check_record_other_type with (d := d).
Qed.

(** C9, as amended: in every run on a host where [Resolver()]
    builds, whose timestamp file, if there is one, is blank or holds a
    number, and whose list replies with status 200 carry a body of
    the expected shape, the exit code is 0
    (on a rate-limit short-circuit, when the public IP cannot be
    determined, and on completion whatever the replies to the update
    calls) unless the run reached the list call and all 3 attempts
    failed, in which case it is 1. *)
Theorem C9_exit_codes (w : world) :
  resolver_error w = None ->
  (forall text, last_run_file w = Some text ->
                exists t0, float_or_zero (strip text) = Ok t0) ->
  (forall attempt text body,
      1 <= attempt <= 3 ->
      get_reply w attempt = Response 200 text (Parsed body) ->
      well_shaped body = true) ->
  exit_code (result (run w)) = 0%Z
  \/ (result (run w) = Exit 1
      /\ exists ip, resolves w ip
                    /\ forall attempt, 1 <= attempt <= 3 ->
                                        is_failure (get_reply w attempt) = true).
Proof.
  intros Built HF HB.
  assert (RL : result (__rate_limit w (initial w)) = Exit 0 \/ proceeds w).
  { unfold proceeds. destruct (last_run_file w) as [text|] eqn:F.
    - destruct (HF text eq_refl) as (t0 & E).
      destruct (PrimFloat.ltb (PrimFloat.sub (now w) t0) MIN_SECONDS_BETWEEN_RUNS) eqn:L.
      + left. now rewrite (rate_limit_blocked w (initial w) text t0 F E L).
      + right. now rewrite (rate_limit_allowed w (initial w) text t0 F E L).
    - right. now rewrite (rate_limit_absent w (initial w) F). }
  destruct RL as [X|P].
  { left. rewrite run_stopped by (rewrite X; discriminate). now rewrite X. }
  destruct (run_proceeds w P Built) as (before & o & logs & _ & E & _ & _ & _ & Run).
  cbn zeta in Run.
  set (st1 := {| file := Some (py_str (now w)); puts := 0 |}) in *.
  destruct o as [ip|]; [destruct (ip =? "") eqn:N|].
  1,3: left; now rewrite Run.
  assert (T : result (run w) = result (main_after_ip w ip st1)) by now rewrite Run.
  rewrite T. clear T Run.
  destruct (public_ip_outcome w st1 Built) as (o' & logs' & E' & _ & _ & _ & Dns).
  rewrite E in E'. injection E' as <- <-.
  destruct (Dns ip eq_refl) as (rest & Hd).
  rewrite after_ip_stages.
  destruct (get_records_outcome w st1)
    as (_ & _ & _ & [(body & a & t & Rv & Ia & Ga)|(Re & Fa & _)]).
  - left. rewrite Rv. cbn [result]. specialize (HB a t body Ia Ga).
    destruct body as [| | | | |xs|kvs];
      try (rewrite after_list_no_records; [reflexivity|left];
           now apply negb_true_iff in HB).
    cbn [well_shaped] in HB.
    destruct (assoc kvs "result") as [[| | | | |records|]|] eqn:A; try discriminate.
    + rewrite (after_list_records w ip kvs records st1 A).
      now destruct (loop_completes w ip records st1 HB) as [-> _].
    + rewrite after_list_no_records; [reflexivity|]. right.
      cbn [has]. now rewrite A.
  - right. rewrite Re. split; [reflexivity|]. exists ip. split; [|exact Fa].
    repeat split; auto.
    + now apply public_ip_returns with (rest := rest).
    + now apply String.eqb_neq.
Qed.

(** C10, as amended: when the run reaches the list call, the call
    succeeds and the parsed body is empty, or is an object, an array
    or a string in which "result" is not found (for an object: it has
    no such key), the driver logs "no DNS records returned" as its
    last act and the run ends normally: no update call is made and
    the exit code is 0. *)
Theorem C10_body_without_result (w : world) (ip : string) (body : json) :
  resolves w ip ->
  returns (__get_cloudflare_dns_records w) body ->
  truthy body = false \/ has "result" body = Ok false ->
  result (run w) = Val tt
  /\ exit_code (result (run w)) = 0%Z
  /\ update_calls (trace (run w)) = []
  /\ exists before, trace (run w) = before ++ [Log ERROR MsgNoRecords].
Proof.
  intros Res L B.
  destruct (run_resolves w ip Res) as (head & U & _ & _ & Run). cbn zeta in Run.
  set (st1 := {| file := Some (py_str (now w)); puts := 0 |}) in *.
  destruct (get_records_outcome w st1) as (_ & GU & _ & _).
  rewrite after_ip_stages, (L st1), (after_list_no_records w ip body st1 B) in Run.
  cbn [result final trace] in Run. rewrite Run. cbn [result trace exit_code].
  repeat split.
  - rewrite !update_calls_app, U, GU. reflexivity.
  - exists (head ++ trace (__get_cloudflare_dns_records w st1)).
    now rewrite app_assoc.
Qed.

(** ** Kinds of events each part emits *)

Lemma filter_none (p f : event -> bool) (t : list event) :
  forallb p t = true -> (forall e, p e = true -> f e = false) -> filter f t = [].
Proof.
  intros H D. induction t as [|e t IH]; [reflexivity|].
  cbn [forallb] in H. apply andb_true_iff in H. destruct H as [He Ht].
  cbn [filter]. rewrite (D e He). now apply IH.
Qed.

Lemma sleeps_none (p : event -> bool) (t : list event) :
  forallb p t = true -> (forall e, p e = true -> is_sleep e = false) -> sleeps t = [].
Proof.
  intros H D. induction t as [|e t IH]; [reflexivity|].
  cbn [forallb] in H. apply andb_true_iff in H. destruct H as [He Ht].
  specialize (D e He). unfold sleeps in *. cbn [flat_map].
  rewrite (IH Ht). destruct e; try reflexivity. discriminate.
Qed.

Lemma update_calls_none (p : event -> bool) (t : list event) :
  forallb p t = true -> (forall e, p e = true -> is_put e = false) ->
  update_calls t = [].
Proof.
  intros H D. induction t as [|e t IH]; [reflexivity|].
  cbn [forallb] in H. apply andb_true_iff in H. destruct H as [He Ht].
  specialize (D e He). unfold update_calls in *. cbn [flat_map].
  rewrite (IH Ht). destruct e; try reflexivity. discriminate.
Qed.

(** The network events of a stretch made of log lines and update
    calls are update calls. *)
Lemma loop_network_is_puts (t : list event) :
  forallb of_loop t = true -> forallb is_put (filter is_network t) = true.
Proof.
  induction t as [|e t IH]; intros H; [reflexivity|].
  cbn [forallb] in H. apply andb_true_iff in H. destruct H as [He Ht].
  cbn [filter]. destruct e; cbn in *; try discriminate; auto.
Qed.

(** When the limiter does not return it has at most read the file and
    logged the hit, and the state is as it was. *)
Lemma rate_limit_stops (w : world) (st : state) :
  result (__rate_limit w st) <> Val tt ->
  final (__rate_limit w st) = st
  /\ (trace (__rate_limit w st) = [FileRead]
      \/ trace (__rate_limit w st) = [FileRead; Log INFO MsgRateLimitHit]).
Proof.
  destruct (file st) as [text|] eqn:F.
  - destruct (float_or_zero (strip text)) as [t0|e] eqn:E.
    + destruct (PrimFloat.ltb (PrimFloat.sub (now w) t0) MIN_SECONDS_BETWEEN_RUNS) eqn:L.
      * rewrite (rate_limit_blocked w st text t0 F E L). cbn. auto.
      * rewrite (rate_limit_allowed w st text t0 F E L). cbn. congruence.
    + rewrite (rate_limit_unreadable w st text e F E). cbn. auto.
  - rewrite (rate_limit_absent w st F). cbn. congruence.
Qed.

(** Besides the query, the resolver only logs. *)
Lemma public_ip_logs (w : world) (st : state) :
  resolver_error w = None ->
  exists logs : list event,
    trace (__get_public_ip w st)
    = DnsQuery "208.67.222.222" "myip.opendns.com" "A" :: logs
    /\ forallb is_log logs = true.
Proof.
  intros Built. unfold __get_public_ip, new_resolver, bind. rewrite Built. simpl.
  destruct (dns w) as [[|rdata rest]|e]; simpl; eexists; split; reflexivity.
Qed.

(** The update call emits log lines and its one request. *)
Lemma update_kinds (w : world) (record_id : json) (ip : string) (name : json)
  (st : state) :
  forallb of_loop (trace (__update_cloudflare_dns_record w record_id ip name st))
  = true.
Proof.
  unfold __update_cloudflare_dns_record, bind, logging, emit, next_put.
  cbn [result final trace app].
  destruct (put_reply w (puts st)) as [status_code text [j|e]|e];
    [destruct (status_code =? 200)%Z| destruct (status_code =? 200)%Z |];
    reflexivity.
Qed.

Lemma check_record_kinds (w : world) (ip : string) (r : json) (st : state) :
  forallb of_loop (trace (check_record w ip r st)) = true.
Proof.
  destruct (dict r) as [d|e] eqn:D.
  - destruct (eq_str (dict_get d "type") "A") eqn:T.
    + destruct (eq_opt_str (dict_get d "name") (CLOUDFLARE_RECORD_NAME w)) eqn:N.
      * destruct (eq_str (dict_get d "content") ip) eqn:C.
        -- now rewrite (check_record_up_to_date w ip r st d D T N C).
        -- pose proof (update_kinds w (dict_get d "id") ip (dict_get d "name") st) as K.
           destruct (update_outcome w (dict_get d "id") ip (dict_get d "name") st)
             as (v & logs & E & _).
           destruct (check_record_mismatch w ip r st d D T N C) as (logs' & E' & _).
           rewrite E'. cbn [trace]. rewrite E in K. cbn [trace] in K.
           revert E'. unfold check_record, bind. rewrite D.
           cbn [lift ret result final trace]. rewrite T.
           unfold logging, emit. cbn [result final trace]. rewrite N, C.
           cbn [andb negb]. rewrite E. cbn [result final trace app].
           rewrite app_nil_r. intros [= <-]. exact K.
      * now rewrite (check_record_not_wanted w ip r st d D T N).
    + now rewrite (check_record_other_type w ip r st d D T).
  - now rewrite (check_record_raises w ip r st e D).
Qed.

Lemma loop_kinds (w : world) (ip : string) (items : list json) (st : state) :
  forallb of_loop (trace (for_each items (check_record w ip) st)) = true.
Proof.
  revert st. induction items as [|r rest IH]; intros st; [reflexivity|].
  cbn [for_each]. unfold bind.
  pose proof (check_record_kinds w ip r st) as K.
  destruct (result (check_record w ip r st)); cbn [trace]; [|exact K|exact K].
  rewrite forallb_app, K. apply IH.
Qed.

Lemma after_list_kinds (w : world) (ip : string) (body : json) (st : state) :
  forallb of_loop (trace (main_after_list w ip body st)) = true.
Proof.
  unfold main_after_list. destruct (truthy body); [|reflexivity].
  cbn [negb]. unfold bind.
  destruct (has "result" body) as [[|]|e]; cbn [lift ret raise result final trace negb];
    try reflexivity.
  destruct (getitem body "result") as [v|e]; cbn [lift ret raise result final trace];
    try reflexivity.
  destruct (iter v) as [items|e]; cbn [lift ret raise result final trace app];
    try reflexivity.
  pose proof (loop_kinds w ip items st) as K.
  destruct (result (for_each items (check_record w ip) st)); exact K.
Qed.

Lemma get_records_bounds (w : world) (st : state) :
  forallb of_list_call (trace (__get_cloudflare_dns_records w st)) = true
  /\ (exists k, k <= 3
        /\ filter is_network (trace (__get_cloudflare_dns_records w st))
           = repeat (list_request w) k)
  /\ (exists j, j <= 3
        /\ sleeps (trace (__get_cloudflare_dns_records w st))
           = map (fun a => RETRY_BACKOFF_SECONDS * a) (seq 1 j)).
Proof.
  destruct (get_attempts_bounds w MAX_RETRIES 1 st) as (K & (k & Hk & Nk) & (j & Hj & Sj)).
  assert (T : trace (__get_cloudflare_dns_records w st)
              = Log INFO MsgGettingRecords :: trace (get_attempts w (seq 1 MAX_RETRIES) st)).
  { unfold __get_cloudflare_dns_records, bind, logging, emit.
    cbn [result final trace].
    destruct (result (get_attempts w (seq 1 MAX_RETRIES) st)); reflexivity. }
  rewrite T. repeat split.
  - cbn [forallb]. rewrite K. reflexivity.
  - exists k. split; [exact Hk|]. cbn [filter is_network]. exact Nk.
  - exists j. split; [exact Hj|]. exact Sj.
Qed.

(** ** The run, part by part *)

(** A run the limiter stops: one log line, the read of the file, at
    most the "rate limit hit" line, and the state as it was. *)
Lemma run_stopped_parts (w : world) :
  ~ proceeds w ->
  final (run w) = initial w
  /\ result (run w) <> Val tt
  /\ (trace (run w) = [Log INFO MsgExecuting; FileRead]
      \/ trace (run w) = [Log INFO MsgExecuting; FileRead; Log INFO MsgRateLimitHit]).
Proof.
  intros N. unfold proceeds in N.
  destruct (rate_limit_stops w (initial w) N) as (F & T).
  rewrite (run_stopped w N). cbn [result final trace]. split; [exact F|]. split.
  - destruct (result (__rate_limit w (initial w))) as [[]|c|e];
      [contradiction|discriminate|discriminate].
  - destruct T as [-> | ->]; auto.
Qed.

(** A run the limiter lets through: the write, the query, then what
    the list call emits, then what the loop emits. *)
Lemma run_parts (w : world) :
  proceeds w ->
  resolver_error w = None ->
  exists before logs lc lp : list event,
    trace (run w)
    = (Log INFO MsgExecuting :: before
       ++ FileWrite (py_str (now w))
       :: DnsQuery "208.67.222.222" "myip.opendns.com" "A" :: logs)
      ++ lc ++ lp
    /\ (before = [] \/ before = [FileRead])
    /\ forallb is_log logs = true
    /\ forallb of_list_call lc = true
    /\ (exists k, k <= 3 /\ filter is_network lc = repeat (list_request w) k)
    /\ (exists j, j <= 3
          /\ sleeps lc = map (fun a => RETRY_BACKOFF_SECONDS * a) (seq 1 j))
    /\ forallb of_loop lp = true
    /\ file (final (run w)) = Some (py_str (now w)).
Proof.
  intros P Built.
  destruct (run_proceeds w P Built) as (before & o & logs & B & E & _ & _ & _ & Run).
  cbn zeta in Run.
  set (st1 := {| file := Some (py_str (now w)); puts := 0 |}) in *.
  destruct (public_ip_logs w st1 Built) as (logs' & T & L).
  rewrite E in T. cbn [trace] in T. injection T as <-.
  assert (none : forallb of_list_call [] = true
                 /\ (exists k, k <= 3 /\ filter is_network [] = repeat (list_request w) k)
                 /\ (exists j, j <= 3
                       /\ sleeps [] = map (fun a => RETRY_BACKOFF_SECONDS * a) (seq 1 j))).
  { repeat split; exists 0; split; auto. }
  destruct o as [ip|]; [destruct (ip =? "")|].
  - exists before, logs, [], [Log ERROR MsgNoPublicIp].
    rewrite Run. cbn [trace final file]. destruct none as (n1 & n2 & n3).
    repeat split; auto.
  - destruct (get_records_bounds w st1) as (K & Nk & Sj).
    pose proof (after_ip_file w ip st1) as F.
    rewrite after_ip_stages in Run. rewrite after_ip_stages in F.
    destruct (result (__get_cloudflare_dns_records w st1)) as [body|c|e].
    + exists before, logs, (trace (__get_cloudflare_dns_records w st1)),
        (trace (main_after_list w ip body st1)).
      rewrite Run. cbn [trace final]. repeat split; auto.
      apply after_list_kinds.
    + exists before, logs, (trace (__get_cloudflare_dns_records w st1)), [].
      rewrite Run. cbn [trace final]. rewrite app_nil_r. repeat split; auto.
    + exists before, logs, (trace (__get_cloudflare_dns_records w st1)), [].
      rewrite Run. cbn [trace final]. rewrite app_nil_r. repeat split; auto.
  - exists before, logs, [], [Log ERROR MsgNoPublicIp].
    rewrite Run. cbn [trace final file]. destruct none as (n1 & n2 & n3).
    repeat split; auto.
Qed.

Lemma proceeds_dec (w : world) : proceeds w \/ ~ proceeds w.
Proof.
  unfold proceeds.
  destruct (result (__rate_limit w (initial w))) as [[]|c|e];
    [now left|right; discriminate|right; discriminate].
Qed.

(** How the three kinds of observation read the head of a run. *)
Lemma head_network (now_text : string) (before logs : list event) :
  (before = [] \/ before = [FileRead]) ->
  forallb is_log logs = true ->
  filter is_network
    (Log INFO MsgExecuting :: before
     ++ FileWrite now_text
     :: DnsQuery "208.67.222.222" "myip.opendns.com" "A" :: logs)
  = [DnsQuery "208.67.222.222" "myip.opendns.com" "A"].
Proof.
  intros B L.
  assert (N : filter is_network logs = [])
    by (apply (filter_none is_log); [exact L|now intros []]).
  destruct B as [-> | ->]; cbn; now rewrite N.
Qed.

Lemma head_sleeps (now_text : string) (before logs : list event) :
  (before = [] \/ before = [FileRead]) ->
  forallb is_log logs = true ->
  sleeps
    (Log INFO MsgExecuting :: before
     ++ FileWrite now_text
     :: DnsQuery "208.67.222.222" "myip.opendns.com" "A" :: logs)
  = [].
Proof.
  intros B L.
  assert (N : sleeps logs = [])
    by (apply (sleeps_none is_log); [exact L|now intros []]).
  destruct B as [-> | ->]; cbn; exact N.
Qed.

Lemma head_writes (now_text : string) (before logs : list event) :
  (before = [] \/ before = [FileRead]) ->
  forallb is_log logs = true ->
  filter is_write
    (Log INFO MsgExecuting :: before
     ++ FileWrite now_text
     :: DnsQuery "208.67.222.222" "myip.opendns.com" "A" :: logs)
  = [FileWrite now_text].
Proof.
  intros B L.
  assert (N : filter is_write logs = [])
    by (apply (filter_none is_log); [exact L|now intros []]).
  destruct B as [-> | ->]; cbn; now rewrite N.
Qed.

(** ** Runs that differ in the replies to the update calls *)

Lemma agree_bind {A B} (m : M A) (k k' : A -> M B) (st : state) :
  (forall a st', agree (k a st') (k' a st')) ->
  agree (bind m k st) (bind m k' st).
Proof.
  intros H. unfold agree, bind.
  destruct (result (m st)) as [a|c|e]; cbn [result final trace]; auto.
  destruct (H a (final (m st))) as (R & U & F).
  rewrite !update_calls_app, R, U, F. auto.
Qed.

Lemma agree_refl {A} (o : outcome A) : agree o o.
Proof. unfold agree. auto. Qed.

Lemma loop_any_reply (w : world) (reply : nat -> http_reply) (ip : string)
  (items : list json) (st st' : state) :
  result (for_each items (check_record (with_put_reply reply w) ip) st)
  = result (for_each items (check_record w ip) st')
  /\ update_calls (trace (for_each items (check_record (with_put_reply reply w) ip) st))
     = update_calls (trace (for_each items (check_record w ip) st')).
Proof.
  revert st st'. induction items as [|r rest IH]; intros st st'.
  - split; reflexivity.
  - cbn [for_each]. unfold bind. destruct (dict r) as [d|e] eqn:D.
    + destruct (check_record_outcome (with_put_reply reply w) ip r st d D)
        as (R & _ & U & _).
      destruct (check_record_outcome w ip r st' d D) as (R' & _ & U' & _).
      rewrite R, R'. cbn [result final trace].
      rewrite !update_calls_app, U, U'.
      destruct (IH (final (check_record (with_put_reply reply w) ip r st))
                   (final (check_record w ip r st'))) as (IR & IU).
      rewrite IR, IU. split; reflexivity.
    + rewrite (check_record_raises (with_put_reply reply w) ip r _ e D).
      rewrite (check_record_raises w ip r _ e D). split; reflexivity.
Qed.

Lemma after_list_any_reply (w : world) (reply : nat -> http_reply) (ip : string)
  (body : json) (st : state) :
  agree (main_after_list (with_put_reply reply w) ip body st)
        (main_after_list w ip body st).
Proof.
  unfold agree. split; [|split].
  2: { unfold main_after_list. destruct (truthy body); [|reflexivity].
       cbn [negb]. unfold bind.
       destruct (has "result" body) as [[|]|e];
         cbn [lift ret raise result final trace negb]; try reflexivity.
       destruct (getitem body "result") as [v|e];
         cbn [lift ret raise result final trace]; try reflexivity.
       destruct (iter v) as [items|e];
         cbn [lift ret raise result final trace app]; try reflexivity.
       destruct (loop_any_reply w reply ip items st st) as (R & U).
       destruct (result (for_each items (check_record (with_put_reply reply w) ip) st)),
         (result (for_each items (check_record w ip) st)); exact U. }
  2: now rewrite !after_list_file.
  unfold main_after_list. destruct (truthy body); [|reflexivity].
  cbn [negb]. unfold bind.
  destruct (has "result" body) as [[|]|e];
    cbn [lift ret raise result final trace negb]; try reflexivity.
  destruct (getitem body "result") as [v|e];
    cbn [lift ret raise result final trace]; try reflexivity.
  destruct (iter v) as [items|e];
    cbn [lift ret raise result final trace app]; try reflexivity.
  destruct (loop_any_reply w reply ip items st st) as (R & U).
  rewrite <- R.
  destruct (result (for_each items (check_record (with_put_reply reply w) ip) st));
    reflexivity.
Qed.

Lemma run_any_reply (w : world) (reply : nat -> http_reply) :
  agree (run (with_put_reply reply w)) (run w).
Proof.
  unfold run. rewrite !main_stretches.
  change (initial (with_put_reply reply w)) with (initial w).
  change (__rate_limit (with_put_reply reply w)) with (__rate_limit w).
  change (__get_public_ip (with_put_reply reply w)) with (__get_public_ip w).
  apply agree_bind. intros _ st1.
  apply agree_bind. intros _ st2.
  apply agree_bind. intros [ip|] st3; [|apply agree_refl].
  destruct (ip =? ""); [apply agree_refl|].
  unfold main_after_ip.
  change (__get_cloudflare_dns_records (with_put_reply reply w))
    with (__get_cloudflare_dns_records w).
  apply agree_bind. intros body st4. apply after_list_any_reply.
Qed.

(** ** The loop on well-formed and on malformed listings *)

Lemma calls_on_due (w : world) (ip : string) (items : list json) :
  forallb converts items = true -> calls_on w ip items = due_calls w ip items.
Proof.
  induction items as [|r rest IH]; intros H; [reflexivity|].
  cbn [forallb] in H. apply andb_true_iff in H. destruct H as [Hr Hl].
  rewrite calls_on_cons. unfold due_calls. cbn [flat_map].
  unfold converts in Hr. destruct (dict r) as [d|e]; [|discriminate].
  f_equal. now apply IH.
Qed.

Lemma loop_raises (w : world) (ip : string) (l1 l2 : list json) (r : json)
  (e : exn) (st : state) :
  forallb converts l1 = true ->
  dict r = Err e ->
  result (for_each (l1 ++ r :: l2) (check_record w ip) st) = Raise e.
Proof.
  revert st. induction l1 as [|x l1 IH]; intros st H D.
  - cbn [app for_each]. unfold bind.
    now rewrite (check_record_raises w ip r st e D).
  - cbn [forallb] in H. apply andb_true_iff in H. destruct H as [Hx Hl].
    unfold converts in Hx. destruct (dict x) as [d|e'] eqn:Dx; [|discriminate].
    destruct (check_record_outcome w ip x st d Dx) as (R & _).
    cbn [app for_each]. unfold bind. rewrite R. cbn [result]. now apply IH.
Qed.

Lemma named_converts (items : list json) :
  forallb is_named items = true -> forallb converts items = true.
Proof.
  induction items as [|r rest IH]; intros H; [reflexivity|].
  cbn [forallb] in *. apply andb_true_iff in H. destruct H as [Hr Hl].
  rewrite (IH Hl), andb_true_r. unfold is_named in Hr. unfold converts.
  now destruct (dict r).
Qed.

Lemma due_calls_unset_name (w : world) (ip : string) (items : list json) :
  CLOUDFLARE_RECORD_NAME w = None ->
  forallb is_named items = true ->
  due_calls w ip items = [].
Proof.
  intros N. induction items as [|r rest IH]; intros H; [reflexivity|].
  cbn [forallb] in H. apply andb_true_iff in H. destruct H as [Hr Hl].
  unfold due_calls. cbn [flat_map]. fold (due_calls w ip rest).
  rewrite (IH Hl), app_nil_r. unfold is_named in Hr.
  destruct (dict r) as [d|e]; [|reflexivity].
  unfold wants_update. rewrite N.
  destruct (dict_get d "name"); try discriminate.
  cbn [eq_opt_str eq_str]. now rewrite andb_false_r.
Qed.

(** ** Further properties of the source *)

(** X1: when the limiter lets the run through and [Resolver()]
    builds, but the lookup inside the [try] raises, answers nothing,
    or answers an empty text, the run logs "public IP address could
    not be determined" as its last act and returns: the DNS query is
    its only network operation (no list call, no update call), the
    exit code is 0, and the timestamp has been written all the same. *)
Theorem X1_no_address_no_http (w : world) :
  proceeds w ->
  resolver_error w = None ->
  (exists e, dns w = DnsError e)
  \/ dns w = DnsAnswer []
  \/ (exists rest, dns w = DnsAnswer ("" :: rest)) ->
  result (run w) = Val tt
  /\ exit_code (result (run w)) = 0%Z
  /\ filter is_network (trace (run w))
     = [DnsQuery "208.67.222.222" "myip.opendns.com" "A"]
  /\ (exists before, trace (run w) = before ++ [Log ERROR MsgNoPublicIp])
  /\ file (final (run w)) = Some (py_str (now w)).
Proof.
  intros P Built D.
  destruct (run_proceeds w P Built) as (before & o & logs & B & E & _ & _ & _ & Run).
  cbn zeta in Run.
  set (st1 := {| file := Some (py_str (now w)); puts := 0 |}) in *.
  destruct (public_ip_logs w st1 Built) as (logs' & T & L).
  rewrite E in T. cbn [trace] in T. injection T as <-.
  assert (O : o = None \/ o = Some "").
  { assert (R : result (__get_public_ip w st1) = Val o) by now rewrite E.
    revert R. unfold __get_public_ip, new_resolver, bind. rewrite Built.
    cbn [ret emit result final trace].
    destruct D as [(e & ->)|[->|(rest & ->)]]; cbn; intros [= <-]; auto. }
  assert (Run' : run w = {| result := Val tt; final := st1;
                           trace := (Log INFO MsgExecuting :: before
                                     ++ FileWrite (py_str (now w))
                                     :: DnsQuery "208.67.222.222" "myip.opendns.com" "A"
                                     :: logs) ++ [Log ERROR MsgNoPublicIp] |})
    by (destruct O as [-> | ->]; exact Run).
  rewrite Run'. cbn [result final trace file exit_code]. repeat split.
  - rewrite filter_app, (head_network _ before logs B L). reflexivity.
  - now eexists.
Qed.

(** X2: the network operations of a run come in one order.  A run
    the limiter stops makes none at all; so does a run on a host where
    [Resolver()] raises; any other run makes a single DNS query first,
    then at most 3 list requests, all alike, then only update calls. *)
Theorem X2_network_order (w : world) :
  (~ proceeds w -> filter is_network (trace (run w)) = [])
  /\ (forall e, proceeds w -> resolver_error w = Some e ->
        filter is_network (trace (run w)) = [])
  /\ (proceeds w -> resolver_error w = None ->
      exists (k : nat) (puts : list event),
        k <= 3
        /\ forallb is_put puts = true
        /\ filter is_network (trace (run w))
           = DnsQuery "208.67.222.222" "myip.opendns.com" "A"
             :: repeat (list_request w) k ++ puts).
Proof.
  split; [|split].
  - intros N.
    destruct (run_stopped_parts w N) as (_ & _ & [-> | ->]); reflexivity.
  - intros e P Unbuilt.
    destruct (run_unbuilt w e P Unbuilt) as (before & B & Run).
    rewrite Run. cbn [trace]. destruct B as [-> | ->]; reflexivity.
  - intros P Built.
    destruct (run_parts w P Built)
      as (before & logs & lc & lp & T & B & L & _ & (k & Hk & Nk) & _ & Lp & _).
    exists k, (filter is_network lp). split; [exact Hk|]. split.
    + now apply loop_network_is_puts.
    + rewrite T, !filter_app, (head_network _ before logs B L), Nk.
      reflexivity.
Qed.

(** X3: in every run the only sleeps are the backoff sleeps of the
    list call: 5, 10, 15 seconds after the first, second and third
    failed attempt, so no run sleeps more than 30 seconds in all. *)
Theorem X3_sleep_bound (w : world) :
  (exists j, j <= 3
     /\ sleeps (trace (run w)) = map (fun attempt => 5 * attempt) (seq 1 j))
  /\ list_sum (sleeps (trace (run w))) <= 30.
Proof.
  assert (H : exists j, j <= 3
     /\ sleeps (trace (run w)) = map (fun attempt => 5 * attempt) (seq 1 j)).
  { destruct (proceeds_dec w) as [P|N].
    - destruct (resolver_error w) as [e|] eqn:Built.
      { exists 0. split; [lia|].
        destruct (run_unbuilt w e P Built) as (before & B & Run).
        rewrite Run. cbn [trace]. destruct B as [-> | ->]; reflexivity. }
      destruct (run_parts w P Built)
        as (before & logs & lc & lp & T & B & L & _ & _ & (j & Hj & Sj) & Lp & _).
      exists j. split; [exact Hj|].
      rewrite T, !sleeps_app, (head_sleeps _ before logs B L), Sj.
      rewrite (sleeps_none of_loop lp Lp); [now rewrite app_nil_r|].
      now intros [].
    - exists 0. split; [lia|].
      destruct (run_stopped_parts w N) as (_ & _ & [-> | ->]); reflexivity. }
  split; [exact H|].
  destruct H as (j & Hj & ->).
  destruct j as [|[|[|[|j]]]]; cbn; lia.
Qed.

(** X4: when attempt [k] of the list call (1 to 3) is the first that
    does not fail, the call returns that attempt's parsed body after
    exactly [k] requests, having slept [5 * attempt] seconds after each
    of the [k - 1] failed attempts and not at all after the successful
    one. *)
Theorem X4_list_call_first_success (w : world) (k : nat) (text : string)
  (body : json) (st : state) :
  1 <= k <= 3 ->
  (forall attempt, 1 <= attempt < k -> is_failure (get_reply w attempt) = true) ->
  get_reply w k = Response 200 text (Parsed body) ->
  result (__get_cloudflare_dns_records w st) = Val body
  /\ filter is_network (trace (__get_cloudflare_dns_records w st))
     = repeat (list_request w) k
  /\ sleeps (trace (__get_cloudflare_dns_records w st))
     = map (fun attempt => 5 * attempt) (seq 1 (k - 1))
  /\ final (__get_cloudflare_dns_records w st) = st.
Proof.
  intros R Fl G.
  destruct (get_attempts_first_success w MAX_RETRIES 1 k st text body)
    as (Rv & Nk & Sk); [unfold MAX_RETRIES; lia|exact Fl|exact G|].
  destruct (get_attempts_outcome w (seq 1 MAX_RETRIES) st) as (F & _).
  unfold __get_cloudflare_dns_records, bind, logging, emit.
  cbn [result final trace]. rewrite Rv. cbn [result final trace app].
  replace (S (k - 1)) with k in Nk by lia.
  repeat split; auto.
Qed.

(** X5: the update function makes its request once and never retries
    or sleeps; it never raises and never exits, whatever the reply;
    and it returns the parsed body exactly when the reply is a 200
    whose body parses, [None] otherwise. *)
Theorem X5_update_call_is_single_and_soft (w : world) (record_id : json)
  (ip_address : string) (name : json) (st : state) :
  exists v : option json,
    result (__update_cloudflare_dns_record w record_id ip_address name st) = Val v
    /\ (forall j, v = Some j
                  <-> exists text, put_reply w (puts st) = Response 200 text (Parsed j))
    /\ update_calls (trace (__update_cloudflare_dns_record w record_id ip_address name st))
       = [(record_id,
           {| body_type := "A"; body_name := name; body_content := ip_address;
              body_ttl := 1; body_proxied := false |})]
    /\ sleeps (trace (__update_cloudflare_dns_record w record_id ip_address name st))
       = []
    /\ file (final (__update_cloudflare_dns_record w record_id ip_address name st))
       = file st.
Proof.
  unfold __update_cloudflare_dns_record, bind, logging, emit, next_put.
  cbn [result final trace app].
  destruct (put_reply w (puts st)) as [status_code text [j|e]|e];
    [destruct (status_code =? 200)%Z eqn:S
    |destruct (status_code =? 200)%Z eqn:S|];
    cbn [result final trace app file].
  - apply Z.eqb_eq in S. subst. exists (Some j). repeat split.
    + intros [= <-]. now exists text.
    + intros (t & [= _ <-]). reflexivity.
  - exists None. repeat split; try discriminate.
    intros (t & [= -> _ _]). discriminate.
  - exists None. repeat split; try discriminate. intros (t & [=]).
  - exists None. repeat split; try discriminate. intros (t & [=]).
  - exists None. repeat split; try discriminate. intros (t & [=]).
Qed.

(** X6: the timestamp file is written at most once per run, and only
    by the limiter: either the limiter stops the run, and the file is
    at the end what it was at the start, with no write in the trace;
    or it lets the run through, and the one write of the trace is the
    clock's reading, which the file holds at the end. *)
Theorem X6_timestamp_written_at_most_once (w : world) :
  (~ proceeds w
   /\ file (final (run w)) = last_run_file w
   /\ filter is_write (trace (run w)) = [])
  \/ (proceeds w
      /\ file (final (run w)) = Some (py_str (now w))
      /\ filter is_write (trace (run w)) = [FileWrite (py_str (now w))]).
Proof.
  destruct (proceeds_dec w) as [P|N].
  - right. split; [exact P|].
    destruct (resolver_error w) as [e|] eqn:Built.
    { destruct (run_unbuilt w e P Built) as (before & B & Run).
      rewrite Run. cbn [trace final file]. split; [reflexivity|].
      destruct B as [-> | ->]; reflexivity. }
    destruct (run_parts w P Built)
      as (before & logs & lc & lp & T & B & L & Lc & _ & _ & Lp & F).
    split; [exact F|].
    rewrite T, !filter_app, (head_writes _ before logs B L).
    rewrite (filter_none of_list_call is_write lc Lc) by now intros [].
    rewrite (filter_none of_loop is_write lp Lp) by now intros [].
    reflexivity.
  - left. split; [exact N|].
    destruct (run_stopped_parts w N) as (F & _ & T).
    rewrite F. split; [reflexivity|].
    destruct T as [-> | ->]; reflexivity.
Qed.

(** X7: two runs in a row.  When a run got past the limiter at time
    [t0] and the next run starts at [t1] finding the file the first
    one left (given that [float] reads back what [str] printed), the
    next run is stopped by the limiter if [t1 - t0 < 55], with exit
    code 0, no network operation and the file untouched, and is let
    through otherwise; how the first run ended plays no part. *)
Theorem X7_next_run_sees_the_window (w1 w2 : world) :
  proceeds w1 ->
  last_run_file w2 = file (final (run w1)) ->
  strip (py_str (now w1)) <> "" ->
  py_float (strip (py_str (now w1))) = Some (now w1) ->
  if PrimFloat.ltb (PrimFloat.sub (now w2) (now w1)) 55%float
  then result (run w2) = Exit 0
       /\ filter is_network (trace (run w2)) = []
       /\ file (final (run w2)) = file (final (run w1))
  else proceeds w2.
Proof.
  intros P F B R.
  assert (F1 : file (final (run w1)) = Some (py_str (now w1))).
  { destruct (resolver_error w1) as [e|] eqn:Built.
    - destruct (run_unbuilt w1 e P Built) as (before & _ & Run). now rewrite Run.
    - now destruct (run_parts w1 P Built)
        as (_ & _ & _ & _ & _ & _ & _ & _ & _ & _ & _ & F1). }
  rewrite F1 in *.
  assert (E : float_or_zero (strip (py_str (now w1))) = Ok (now w1)).
  { unfold float_or_zero. apply String.eqb_neq in B. now rewrite B, R. }
  destruct (PrimFloat.ltb (PrimFloat.sub (now w2) (now w1)) 55%float) eqn:L.
  - pose proof (rate_limit_blocked w2 (initial w2) _ _ F E L) as K.
    rewrite run_stopped by (rewrite K; discriminate).
    rewrite K. cbn [result final trace initial file]. repeat split. exact F.
  - unfold proceeds.
    now rewrite (rate_limit_allowed w2 (initial w2) _ _ F E L).
Qed.

(** X8: the replies to the update calls change nothing but log lines:
    two runs that differ only in those replies end the same way (same
    value, exit or exception, hence the same exit code), make the same
    update calls in the same order, and leave the same timestamp
    file.  A failed update neither stops the loop nor is retried. *)
Theorem X8_update_replies_do_not_steer (w : world) (reply : nat -> http_reply) :
  result (run (with_put_reply reply w)) = result (run w)
  /\ update_calls (trace (run (with_put_reply reply w)))
     = update_calls (trace (run w))
  /\ file (final (run (with_put_reply reply w))) = file (final (run w)).
Proof. exact (run_any_reply w reply). Qed.

(** X9: when the listed result is made of records [dict] accepts, the
    run returns normally and its update calls are exactly the calls
    due: one for each listed record of type "A" under the configured
    name whose content differs from the address, in list order, none
    left out whatever the replies to the earlier calls. *)
Theorem X9_every_due_record_updated (w : world) (ip : string)
  (records : list json) :
  lists w ip records ->
  forallb converts records = true ->
  result (run w) = Val tt
  /\ exit_code (result (run w)) = 0%Z
  /\ update_calls (trace (run w)) = due_calls w ip records.
Proof.
  intros L H.
  destruct (run_lists w ip _ L) as (head & U & _ & Run). cbn zeta in Run.
  set (st1 := {| file := Some (py_str (now w)); puts := 0 |}) in *.
  destruct (loop_completes w ip records st1 H) as (R & _).
  destruct (loop_any_state w ip records st1 {| file := None; puts := 0 |})
    as (_ & E & _).
  rewrite Run. cbn [result trace]. rewrite R, update_calls_app, U, E.
  fold (calls_on w ip records). rewrite (calls_on_due w ip records H).
  repeat split.
Qed.

(** X10: an item of the listed result that [dict] rejects (a number,
    say) stops the run there: the exception is caught by nobody, the
    exit code is 1, the update calls made are those for the items
    before it, and the items after it are never looked at. *)
Theorem X10_bad_item_aborts_the_loop (w : world) (ip : string)
  (l1 l2 : list json) (r : json) (e : exn) :
  lists w ip (l1 ++ r :: l2) ->
  forallb converts l1 = true ->
  dict r = Err e ->
  result (run w) = Raise e
  /\ exit_code (result (run w)) = 1%Z
  /\ update_calls (trace (run w)) = due_calls w ip l1.
Proof.
  intros L H D.
  destruct (run_lists w ip _ L) as (head & U & _ & Run). cbn zeta in Run.
  set (st1 := {| file := Some (py_str (now w)); puts := 0 |}) in *.
  pose proof (loop_raises w ip l1 l2 r e st1 H D) as R.
  destruct (loop_any_state w ip (l1 ++ r :: l2) st1 {| file := None; puts := 0 |})
    as (_ & E & _).
  rewrite Run. cbn [result trace]. rewrite R, update_calls_app, U, E.
  fold (calls_on w ip (l1 ++ r :: l2)).
  rewrite (calls_on_app w ip l1 (r :: l2) H), calls_on_cons, D, app_nil_r.
  rewrite (calls_on_due w ip l1 H). repeat split.
Qed.

(** X11: when the list call returns an object whose "result" cannot
    be iterated (null, a number, a boolean), the [for] statement
    raises: the run ends with that exception and exit code 1, and no
    update call is made. *)
Theorem X11_result_not_iterable (w : world) (ip : string)
  (kvs : list (string * json)) (v : json) (e : exn) :
  resolves w ip ->
  returns (__get_cloudflare_dns_records w) (JObj kvs) ->
  assoc kvs "result" = Some v ->
  iter v = Err e ->
  result (run w) = Raise e
  /\ exit_code (result (run w)) = 1%Z
  /\ update_calls (trace (run w)) = [].
Proof.
  intros Res L A I.
  destruct (run_resolves w ip Res) as (head & U & _ & _ & Run). cbn zeta in Run.
  set (st1 := {| file := Some (py_str (now w)); puts := 0 |}) in *.
  destruct (get_records_outcome w st1) as (_ & GU & _ & _).
  assert (D : main_after_list w ip (JObj kvs) st1
              = {| result := Raise e; final := st1; trace := [] |}).
  { unfold main_after_list.
    assert (T : truthy (JObj kvs) = true) by (destruct kvs; [discriminate|reflexivity]).
    rewrite T. cbn [negb has getitem lift]. unfold bind. rewrite A.
    cbn [lift ret result final trace negb]. rewrite I. reflexivity. }
  rewrite after_ip_stages, (L st1), D in Run. cbn [result final trace] in Run.
  rewrite Run. cbn [result trace exit_code].
  rewrite !update_calls_app, U, GU. repeat split.
Qed.

(** X12: with CLOUDFLARE_RECORD_NAME not set, [os.getenv] gives
    [None], which no string equals: a run listed records that all
    carry a name makes no update call and returns normally. *)
Theorem X12_unset_name_updates_nothing_named (w : world) (ip : string)
  (records : list json) :
  CLOUDFLARE_RECORD_NAME w = None ->
  lists w ip records ->
  forallb is_named records = true ->
  result (run w) = Val tt
  /\ update_calls (trace (run w)) = [].
Proof.
  intros N L H.
  pose proof (named_converts records H) as C.
  destruct (run_lists w ip _ L) as (head & U & _ & Run). cbn zeta in Run.
  set (st1 := {| file := Some (py_str (now w)); puts := 0 |}) in *.
  destruct (loop_completes w ip records st1 C) as (R & _).
  destruct (loop_any_state w ip records st1 {| file := None; puts := 0 |})
    as (_ & E & _).
  rewrite Run. cbn [result trace]. rewrite R, update_calls_app, U, E.
  fold (calls_on w ip records).
  rewrite (calls_on_due w ip records C), (due_calls_unset_name w ip records N H).
  split; reflexivity.
Qed.

(** X13: keys a listed record lacks are read as [None].  A record
    without "type" is passed over without a log line.  A record of
    type "A" under the configured name without "content" is updated
    whatever the address is, since [None] differs from every string;
    and when such a record has no "id" either, the update call is made
    for the id [None]. *)
Theorem X13_missing_keys (w : world) (ip : string) (r : json)
  (d : list (string * json)) (st : state) :
  dict r = Ok d ->
  (assoc d "type" = None ->
   check_record w ip r st = {| result := Val tt; final := st; trace := [] |})
  /\ (eq_str (dict_get d "type") "A" = true ->
      eq_opt_str (dict_get d "name") (CLOUDFLARE_RECORD_NAME w) = true ->
      assoc d "content" = None ->
      update_calls (trace (check_record w ip r st))
      = [(dict_get d "id",
          {| body_type := "A"; body_name := dict_get d "name"; body_content := ip;
             body_ttl := 1; body_proxied := false |})]
      /\ (assoc d "id" = None ->
          map fst (update_calls (trace (check_record w ip r st))) = [JNull])).
Proof.
  intros D. split.
  - intros T. apply (check_record_other_type w ip r st d D).
    unfold dict_get. now rewrite T.
  - intros T N C.
    destruct (check_record_outcome w ip r st d D) as (_ & _ & U & _).
    assert (W : wants_update w ip d = true).
    { unfold wants_update. rewrite T, N. unfold dict_get. now rewrite C. }
    rewrite U, W. split; [reflexivity|].
    intros I. cbn. unfold dict_get. now rewrite I.
Qed.

(** X14: a timestamp file that is not blank and that [float] rejects
    ends the run at once: [ValueError] is caught by nobody, the exit
    code is 1, nothing is written to the file and no network
    operation is made. *)
Theorem X14_unreadable_timestamp_raises (w : world) (text : string) :
  last_run_file w = Some text ->
  strip text <> "" ->
  py_float (strip text) = None ->
  run w = {| result := Raise ValueError; final := initial w;
             trace := [Log INFO MsgExecuting; FileRead] |}
  /\ exit_code (result (run w)) = 1%Z
  /\ filter is_network (trace (run w)) = []
  /\ file (final (run w)) = Some text.
Proof.
  intros F B R.
  assert (E : float_or_zero (strip text) = Err ValueError).
  { unfold float_or_zero. apply String.eqb_neq in B. now rewrite B, R. }
  pose proof (rate_limit_unreadable w (initial w) text _ F E) as K.
  assert (Run : run w = {| result := Raise ValueError; final := initial w;
                          trace := [Log INFO MsgExecuting; FileRead] |}).
  { rewrite run_stopped; rewrite K; [reflexivity|discriminate]. }
  rewrite Run. cbn [result final trace initial file]. repeat split. exact F.
Qed.

(** X15: on a host where [Resolver()] raises (line 77, outside the
    [try]), a run the limiter lets through ends with that exception
    right after writing the timestamp: the exit code is 1, no DNS
    query and no HTTP call is made, no error line is logged, and the
    rate-limit window is consumed all the same. *)
Theorem X15_resolver_not_built (w : world) (e : exn) :
  proceeds w ->
  resolver_error w = Some e ->
  result (run w) = Raise e
  /\ exit_code (result (run w)) = 1%Z
  /\ filter is_network (trace (run w)) = []
  /\ (trace (run w) = [Log INFO MsgExecuting; FileWrite (py_str (now w))]
      \/ trace (run w)
         = [Log INFO MsgExecuting; FileRead; FileWrite (py_str (now w))])
  /\ file (final (run w)) = Some (py_str (now w)).
Proof.
  intros P Unbuilt.
  destruct (run_unbuilt w e P Unbuilt) as (before & B & Run).
  rewrite Run. cbn [result final trace file exit_code].
  destruct B as [-> | ->]; repeat split; auto.
Qed.

End Agent.

(** ** Sample runs *)

Ltac sample_resolves :=
  split; [reflexivity | split; [intro; reflexivity | discriminate]].

Ltac sample_lists :=
  split; [sample_resolves | eexists; split; [intro; reflexivity | reflexivity]].

(** C1 on a run listed three records, the second one stale. *)
Lemma C1_mismatch_updated_once_witness :
  update_calls
    (trace (run sample_float sample_str
              (sample_world "5.6.7.8"
                 [a_record "r0" "other.example.com" "9.9.9.9";
                  a_record "r1" home "1.2.3.4";
                  a_record "r2" home "5.6.7.8"])))
  = [(JStr "r1",
      {| body_type := "A"; body_name := JStr home; body_content := "5.6.7.8";
         body_ttl := 1; body_proxied := false |})].
Proof.
  refine (proj1 (C1_mismatch_updated_once sample_float sample_str
            (sample_world "5.6.7.8"
               [a_record "r0" "other.example.com" "9.9.9.9";
                a_record "r1" home "1.2.3.4";
                a_record "r2" home "5.6.7.8"])
            "5.6.7.8"
            [a_record "r0" "other.example.com" "9.9.9.9"]
            [a_record "r2" home "5.6.7.8"]
            (a_record "r1" home "1.2.3.4")
            [("id", JStr "r1"); ("type", JStr "A"); ("name", JStr home);
             ("content", JStr "1.2.3.4"); ("ttl", JInt 1); ("proxied", JBool false)]
            _ _ _ _ _ _)); try reflexivity.
  sample_lists.
Defined.

(** C2 on a run listed a record that already holds the address. *)
Lemma C2_up_to_date_not_updated_witness :
  update_calls
    (trace (run sample_float sample_str
              (sample_world "1.2.3.4" [a_record "r1" home "1.2.3.4"]))) = []
  /\ forall st,
       check_record (sample_world "1.2.3.4" [a_record "r1" home "1.2.3.4"])
         "1.2.3.4" (a_record "r1" home "1.2.3.4") st
       = {| result := Val tt; final := st;
            trace := [Log INFO (MsgChecking (JStr home));
                      Log INFO (MsgUpToDate (JStr home))] |}.
Proof.
  refine (C2_up_to_date_not_updated sample_float sample_str
            (sample_world "1.2.3.4" [a_record "r1" home "1.2.3.4"])
            "1.2.3.4" [] [] (a_record "r1" home "1.2.3.4")
            [("id", JStr "r1"); ("type", JStr "A"); ("name", JStr home);
             ("content", JStr "1.2.3.4"); ("ttl", JInt 1); ("proxied", JBool false)]
            _ _ _ _ _ _); try reflexivity.
  sample_lists.
Defined.

(** C3 on a run started 30.5 s after the last one. *)
Lemma C3_rate_limited_run_is_silent_witness :
  exit_code (result (run sample_float sample_str
                       (with_file "1700000000.0" 1700000030.5%float
                          (sample_world "5.6.7.8" [])))) = 0%Z
  /\ filter is_network
       (trace (run sample_float sample_str
                 (with_file "1700000000.0" 1700000030.5%float
                    (sample_world "5.6.7.8" [])))) = [].
Proof.
  refine (proj2 (C3_rate_limited_run_is_silent sample_float sample_str
                   (with_file "1700000000.0" 1700000030.5%float
                      (sample_world "5.6.7.8" []))
                   "1700000000.0" 1700000000%float _ _ _)); reflexivity.
Defined.

(** C4 on a first run whose update call is due. *)
Lemma C4_timestamp_written_before_network_witness :
  exists before after : list event,
    trace (run sample_float sample_str
             (sample_world "5.6.7.8" [a_record "r1" home "1.2.3.4"]))
    = before ++ FileWrite "1700000100.0" :: after
    /\ filter is_network before = []
    /\ file (final (run sample_float sample_str
                      (sample_world "5.6.7.8" [a_record "r1" home "1.2.3.4"])))
       = Some "1700000100.0".
Proof.
  refine (C4_timestamp_written_before_network sample_float sample_str
            (sample_world "5.6.7.8" [a_record "r1" home "1.2.3.4"]) _).
  reflexivity.
Defined.

(** C5, as amended, on a run that finds a blank timestamp file. *)
Lemma C5_absent_or_blank_file_proceeds_witness :
  proceeds sample_float sample_str
    (with_file "  " 1700000100%float (sample_world "5.6.7.8" []))
  /\ file (final (__rate_limit sample_float sample_str
                    (with_file "  " 1700000100%float (sample_world "5.6.7.8" []))
                    (initial (with_file "  " 1700000100%float
                                (sample_world "5.6.7.8" [])))))
     = Some "1700000100.0"
  /\ In (DnsQuery "208.67.222.222" "myip.opendns.com" "A")
        (trace (run sample_float sample_str
                  (with_file "  " 1700000100%float (sample_world "5.6.7.8" [])))).
Proof.
  pose proof (C5_absent_or_blank_file_proceeds sample_float sample_str
                (with_file "  " 1700000100%float (sample_world "5.6.7.8" []))) as H.
  destruct H as (P & F & I).
  - right. exists "  ". repeat split; reflexivity.
  - split; [exact P|]. split; [exact F|]. exact (I eq_refl).
Defined.

(** C5 as stated fails: a timestamp file holding "abc" is not read as
    zero; [float] raises, nothing catches it, and the run stops before
    the limiter has let it through. *)
Lemma C5_unparseable_file_raises :
  last_run_file garbled_world = Some "abc"
  /\ sample_float (strip "abc") = None
  /\ ~ proceeds sample_float sample_str garbled_world
  /\ run sample_float sample_str garbled_world
     = {| result := Raise ValueError; final := initial garbled_world;
          trace := [Log INFO MsgExecuting; FileRead] |}.
Proof.
  repeat split; try reflexivity. unfold proceeds. vm_compute. discriminate.
Qed.

(** C6 on a run whose list call times out twice and is then refused. *)
Lemma C6_list_call_exhausted_witness :
  result (run sample_float sample_str
            (with_get_reply
               (fun attempt => if (attempt =? 3)%nat
                               then Response 503 "unavailable" (Unparsable "no JSON")
                               else Transport "timed out")
               (sample_world "5.6.7.8" []))) = Exit 1
  /\ sleeps (trace (run sample_float sample_str
                      (with_get_reply
                         (fun attempt => if (attempt =? 3)%nat
                                         then Response 503 "unavailable"
                                                (Unparsable "no JSON")
                                         else Transport "timed out")
                         (sample_world "5.6.7.8" [])))) = [5; 10; 15].
Proof.
  pose proof (C6_list_call_exhausted sample_float sample_str
                (with_get_reply
                   (fun attempt => if (attempt =? 3)%nat
                                   then Response 503 "unavailable" (Unparsable "no JSON")
                                   else Transport "timed out")
                   (sample_world "5.6.7.8" []))
                "5.6.7.8") as H.
  destruct H as (R & _ & _ & S & _).
  - sample_resolves.
  - intros attempt _. simpl. destruct (attempt =? 3)%nat; reflexivity.
  - split; [exact R | exact S].
Defined.

(** C7 as stated fails: two listed "A" records under the configured
    name, both stale, are both updated in one run. *)
Lemma C7_two_records_updated :
  map fst (update_calls (trace (run sample_float sample_str two_targets_world)))
  = [JStr "r1"; JStr "r2"]
  /\ ~ length (update_calls (trace (run sample_float sample_str two_targets_world)))
       <= 1.
Proof.
  split; [reflexivity|]. vm_compute. lia.
Qed.

(** C8, as amended, on a run listed a CNAME record and an A record. *)
Lemma C8_checking_line_for_A_records_only_witness :
  exists done later : list json,
    [cname_record; a_record "r1" home "5.6.7.8"] = done ++ later
    /\ forallb converts done = true
    /\ (later = [] \/ exists r l, later = r :: l /\ converts r = false)
    /\ checked (trace (run sample_float sample_str
                         (sample_world "5.6.7.8"
                            [cname_record; a_record "r1" home "5.6.7.8"])))
       = flat_map checking_line done.
Proof.
  pose proof (C8_checking_line_for_A_records_only sample_float sample_str
                (sample_world "5.6.7.8"
                   [cname_record; a_record "r1" home "5.6.7.8"])
                "5.6.7.8" [cname_record; a_record "r1" home "5.6.7.8"]) as H.
  destruct H as (done & later & S & C & L & K & _).
  - sample_lists.
  - exists done, later. repeat split; assumption.
Defined.

(** C8 as stated fails: for a listed record of type "CNAME" no
    "checking record" line is logged; the whole run logs two lines. *)
Lemma C8_no_checking_line_for_cname :
  trace (run sample_float sample_str cname_world)
  = [Log INFO MsgExecuting; FileWrite "1700000100.0";
     DnsQuery "208.67.222.222" "myip.opendns.com" "A";
     Log INFO MsgGettingRecords;
     HttpGet (Some "zone") (Some "token") "A" (Some home)]
  /\ ~ In (Log INFO (MsgChecking (JStr home)))
         (trace (run sample_float sample_str cname_world)).
Proof.
  split; [reflexivity|]. vm_compute. intuition discriminate.
Qed.

(** C9, as amended, on a run whose update call is answered 500: the
    error is logged and the exit code is 0. *)
Lemma C9_exit_codes_witness :
  exit_code (result (run sample_float sample_str failed_update_world)) = 0%Z
  /\ In (Log ERROR (MsgUpdateError "error"))
        (trace (run sample_float sample_str failed_update_world)).
Proof.
  pose proof (C9_exit_codes sample_float sample_str failed_update_world) as H.
  destruct H as [Z|(R & _)].
  - reflexivity.
  - intros text [= <-]. exists 1700000000%float. reflexivity.
  - intros attempt text body _ [= _ <-]. reflexivity.
  - split; [exact Z|]. vm_compute. intuition.
  - vm_compute in R. discriminate.
Defined.

(** C9 as stated fails: with a timestamp file holding "abc" the
    process ends with exit code 1 although the list call was never
    made, let alone retried. *)
Lemma C9_nonzero_exit_without_list_call :
  exit_code (result (run sample_float sample_str garbled_world)) = 1%Z
  /\ filter is_network (trace (run sample_float sample_str garbled_world)) = [].
Proof. split; reflexivity. Qed.

(** C10 on a run whose list call is answered 200 with an object that
    has no "result". *)
Lemma C10_body_without_result_witness :
  result (run sample_float sample_str
            (with_get_reply
               (fun _ => Response 200 "" (Parsed (JObj [("success", JBool false)])))
               (sample_world "5.6.7.8" []))) = Val tt
  /\ update_calls
       (trace (run sample_float sample_str
                 (with_get_reply
                    (fun _ => Response 200 "" (Parsed (JObj [("success", JBool false)])))
                    (sample_world "5.6.7.8" [])))) = [].
Proof.
  pose proof (C10_body_without_result sample_float sample_str
                (with_get_reply
                   (fun _ => Response 200 "" (Parsed (JObj [("success", JBool false)])))
                   (sample_world "5.6.7.8" []))
                "5.6.7.8" (JObj [("success", JBool false)])) as H.
  destruct H as (R & _ & U & _).
  - sample_resolves.
  - intro st. reflexivity.
  - right. reflexivity.
  - split; [exact R | exact U].
Defined.

(** ** Sample runs for the further properties *)

(** X1 on a run whose resolver times out. *)
Lemma X1_no_address_no_http_witness :
  result (run sample_float sample_str
            (with_dns (DnsError "timed out")
               (sample_world "5.6.7.8" [a_record "r1" home "1.2.3.4"]))) = Val tt
  /\ filter is_network
       (trace (run sample_float sample_str
                 (with_dns (DnsError "timed out")
                    (sample_world "5.6.7.8" [a_record "r1" home "1.2.3.4"]))))
     = [DnsQuery "208.67.222.222" "myip.opendns.com" "A"].
Proof.
  pose proof (X1_no_address_no_http sample_float sample_str
                (with_dns (DnsError "timed out")
                   (sample_world "5.6.7.8" [a_record "r1" home "1.2.3.4"]))) as H.
  destruct H as (R & _ & N & _).
  - reflexivity.
  - reflexivity.
  - left. now exists "timed out".
  - split; [exact R | exact N].
Defined.

(** X4 on a list call that times out once and then succeeds. *)
Lemma X4_list_call_first_success_witness :
  sleeps (trace (__get_cloudflare_dns_records
                   (with_get_reply
                      (fun attempt => if (attempt =? 2)%nat
                                      then Response 200 "" (Parsed (listing []))
                                      else Transport "timed out")
                      (sample_world "5.6.7.8" []))
                   {| file := None; puts := 0 |})) = [5]
  /\ result (__get_cloudflare_dns_records
               (with_get_reply
                  (fun attempt => if (attempt =? 2)%nat
                                  then Response 200 "" (Parsed (listing []))
                                  else Transport "timed out")
                  (sample_world "5.6.7.8" []))
               {| file := None; puts := 0 |}) = Val (listing []).
Proof.
  pose proof (X4_list_call_first_success
                (with_get_reply
                   (fun attempt => if (attempt =? 2)%nat
                                   then Response 200 "" (Parsed (listing []))
                                   else Transport "timed out")
                   (sample_world "5.6.7.8" []))
                2 "" (listing []) {| file := None; puts := 0 |}) as H.
  destruct H as (R & _ & S & _).
  - lia.
  - intros attempt Ha. assert (attempt = 1) as -> by lia. reflexivity.
  - reflexivity.
  - split; [exact S | exact R].
Defined.

(** X7 on a first run at 1700000100 and a second one 30 s later. *)
Lemma X7_next_run_sees_the_window_witness :
  result (run sample_float sample_str
            (with_file "1700000100.0" 1700000130%float (sample_world "5.6.7.8" [])))
  = Exit 0
  /\ filter is_network
       (trace (run sample_float sample_str
                 (with_file "1700000100.0" 1700000130%float
                    (sample_world "5.6.7.8" [])))) = []
  /\ file (final (run sample_float sample_str
                    (with_file "1700000100.0" 1700000130%float
                       (sample_world "5.6.7.8" []))))
     = file (final (run sample_float sample_str (sample_world "5.6.7.8" []))).
Proof.
  refine (X7_next_run_sees_the_window sample_float sample_str
            (sample_world "5.6.7.8" [])
            (with_file "1700000100.0" 1700000130%float (sample_world "5.6.7.8" []))
            _ _ _ _); try reflexivity.
  discriminate.
Defined.

(** X9 on a run listed two stale records around a foreign one, every
    update call being answered 500. *)
Lemma X9_every_due_record_updated_witness :
  map fst
    (update_calls
       (trace (run sample_float sample_str
                 (with_put_reply (fun _ => Response 500 "error" (Unparsable "no JSON"))
                    (sample_world "5.6.7.8"
                       [a_record "r1" home "1.2.3.4";
                        a_record "r0" "other.example.com" "1.2.3.4";
                        a_record "r2" home "9.9.9.9"])))))
  = [JStr "r1"; JStr "r2"].
Proof.
  pose proof (X9_every_due_record_updated sample_float sample_str
                (with_put_reply (fun _ => Response 500 "error" (Unparsable "no JSON"))
                   (sample_world "5.6.7.8"
                      [a_record "r1" home "1.2.3.4";
                       a_record "r0" "other.example.com" "1.2.3.4";
                       a_record "r2" home "9.9.9.9"]))
                "5.6.7.8"
                [a_record "r1" home "1.2.3.4";
                 a_record "r0" "other.example.com" "1.2.3.4";
                 a_record "r2" home "9.9.9.9"]) as H.
  destruct H as (_ & _ & U).
  - sample_lists.
  - reflexivity.
  - rewrite U. reflexivity.
Defined.

(** X10 on a run listed a stale record, the number 7 and another
    stale record. *)
Lemma X10_bad_item_aborts_the_loop_witness :
  result (run sample_float sample_str
            (sample_world "5.6.7.8"
               [a_record "r1" home "1.2.3.4"; JInt 7; a_record "r2" home "9.9.9.9"]))
  = Raise TypeError
  /\ map fst
       (update_calls
          (trace (run sample_float sample_str
                    (sample_world "5.6.7.8"
                       [a_record "r1" home "1.2.3.4"; JInt 7;
                        a_record "r2" home "9.9.9.9"]))))
     = [JStr "r1"].
Proof.
  pose proof (X10_bad_item_aborts_the_loop sample_float sample_str
                (sample_world "5.6.7.8"
                   [a_record "r1" home "1.2.3.4"; JInt 7; a_record "r2" home "9.9.9.9"])
                "5.6.7.8" [a_record "r1" home "1.2.3.4"]
                [a_record "r2" home "9.9.9.9"] (JInt 7) TypeError) as H.
  destruct H as (R & _ & U).
  - sample_lists.
  - reflexivity.
  - reflexivity.
  - split; [exact R | rewrite U; reflexivity].
Defined.

(** X11 on a run whose list call is answered with "result": null. *)
Lemma X11_result_not_iterable_witness :
  result (run sample_float sample_str
            (with_get_reply
               (fun _ => Response 200 "" (Parsed (JObj [("result", JNull)])))
               (sample_world "5.6.7.8" []))) = Raise TypeError
  /\ update_calls
       (trace (run sample_float sample_str
                 (with_get_reply
                    (fun _ => Response 200 "" (Parsed (JObj [("result", JNull)])))
                    (sample_world "5.6.7.8" [])))) = [].
Proof.
  pose proof (X11_result_not_iterable sample_float sample_str
                (with_get_reply
                   (fun _ => Response 200 "" (Parsed (JObj [("result", JNull)])))
                   (sample_world "5.6.7.8" []))
                "5.6.7.8" [("result", JNull)] JNull TypeError) as H.
  destruct H as (R & _ & U).
  - sample_resolves.
  - intro st. reflexivity.
  - reflexivity.
  - reflexivity.
  - split; [exact R | exact U].
Defined.

(** X12 on a run with the record name unset and a stale record listed. *)
Lemma X12_unset_name_updates_nothing_named_witness :
  result (run sample_float sample_str
            (without_record_name
               (sample_world "5.6.7.8" [a_record "r1" home "1.2.3.4"]))) = Val tt
  /\ update_calls
       (trace (run sample_float sample_str
                 (without_record_name
                    (sample_world "5.6.7.8" [a_record "r1" home "1.2.3.4"])))) = [].
Proof.
  refine (X12_unset_name_updates_nothing_named sample_float sample_str
            (without_record_name
               (sample_world "5.6.7.8" [a_record "r1" home "1.2.3.4"]))
            "5.6.7.8" [a_record "r1" home "1.2.3.4"] _ _ _); try reflexivity.
  sample_lists.
Defined.

(** X13 on a listed record that has a type and a name only. *)
Lemma X13_missing_keys_witness :
  map fst
    (update_calls
       (trace (check_record (sample_world "5.6.7.8" []) "5.6.7.8"
                 (JObj [("type", JStr "A"); ("name", JStr home)])
                 {| file := None; puts := 0 |})))
  = [JNull].
Proof.
  refine (proj2 (proj2 (X13_missing_keys (sample_world "5.6.7.8" []) "5.6.7.8"
                          (JObj [("type", JStr "A"); ("name", JStr home)])
                          [("type", JStr "A"); ("name", JStr home)]
                          {| file := None; puts := 0 |} _) _ _ _) _);
    reflexivity.
Defined.

(** X14 on a run that finds "abc" in the timestamp file. *)
Lemma X14_unreadable_timestamp_raises_witness :
  exit_code (result (run sample_float sample_str garbled_world)) = 1%Z
  /\ file (final (run sample_float sample_str garbled_world)) = Some "abc".
Proof.
  pose proof (X14_unreadable_timestamp_raises sample_float sample_str
                garbled_world "abc") as H.
  destruct H as (_ & E & _ & F).
  - reflexivity.
  - discriminate.
  - reflexivity.
  - split; [exact E | exact F].
Defined.

(** C1 as stated fails: a stale "A" record under the configured name
    that is listed after the number 7 is never updated; [dict(7)]
    raises before the loop reaches it. *)
Lemma C1_record_after_bad_item_not_updated :
  lists sample_float sample_str bad_item_first_world "5.6.7.8"
    [JInt 7; a_record "r1" home "1.2.3.4"]
  /\ wants_update bad_item_first_world "5.6.7.8"
       [("id", JStr "r1"); ("type", JStr "A"); ("name", JStr home);
        ("content", JStr "1.2.3.4"); ("ttl", JInt 1); ("proxied", JBool false)]
     = true
  /\ update_calls (trace (run sample_float sample_str bad_item_first_world)) = []
  /\ result (run sample_float sample_str bad_item_first_world) = Raise TypeError.
Proof.
  split; [sample_lists|]. repeat split; reflexivity.
Qed.

(** C10 as stated fails: a list call answered 200 with the body [5],
    which holds no "result" key, does not end the run normally; the
    test ["result" not in records] raises and the exit code is 1. *)
Lemma C10_scalar_body_raises :
  get_reply scalar_body_world 1 = Response 200 "5" (Parsed (JInt 5))
  /\ result (run sample_float sample_str scalar_body_world) = Raise TypeError
  /\ exit_code (result (run sample_float sample_str scalar_body_world)) = 1%Z.
Proof. repeat split; reflexivity. Qed.

(** X15 on a first run on a host without resolver configuration. *)
Lemma X15_resolver_not_built_witness :
  result (run sample_float sample_str
            (with_resolver_error NoResolverConfiguration
               (sample_world "5.6.7.8" [a_record "r1" home "1.2.3.4"])))
  = Raise NoResolverConfiguration
  /\ filter is_network
       (trace (run sample_float sample_str
                 (with_resolver_error NoResolverConfiguration
                    (sample_world "5.6.7.8" [a_record "r1" home "1.2.3.4"])))) = [].
Proof.
  pose proof (X15_resolver_not_built sample_float sample_str
                (with_resolver_error NoResolverConfiguration
                   (sample_world "5.6.7.8" [a_record "r1" home "1.2.3.4"]))
                NoResolverConfiguration) as H.
  destruct H as (R & _ & N & _).
  - reflexivity.
  - reflexivity.
  - split; [exact R | exact N].
Defined.
